(** * Technical sustainability analysis pipeline

    A shallow embedding of [technical_sustainability.py]: the file
    classifier, the pattern analyzer, the dependency, test-coverage,
    commit-history and structure analyzers, the qualitative scorer and the
    orchestrator, followed by the properties established about them.

    Conventions of the embedding.
    - Python [str] is [string]; a text is a sequence of 8-bit characters.
    - Python [dict] with string keys is [gmap string _]; [Counter] is
      [gmap string nat] read with a default of 0.
    - Python integers that count things are [nat]; those that are compared
      with large constants or may be negative are [Z].
    - Python true division [/] is division in [Q] (exact rationals); the
      rounding of binary floating point is not modelled.
    - A path is the list of its [os.sep]-separated segments.
    - Library functions whose behaviour is not part of this repository (the
      [re] engine, [json.loads], [int], [datetime.strptime]) are the fields
      of a record, [pylib], that the analyzers take as a parameter; every
      statement holds for each behaviour they may have, and [Sample.lib] is
      one such behaviour on which the model runs. *)

From Stdlib Require Import ZArith QArith Qminmax Lia Bool.
From Stdlib Require Import Ascii String.
From stdpp Require Import gmap strings list fin_maps.

Set Warnings "-register-all".

Local Open Scope Z_scope.
Local Open Scope stdpp_scope.

(* ================================================================== *)
(** * Python built-ins used by the program *)
(* ================================================================== *)

Module Py.

(** Characters that have no plain spelling inside a literal. *)
Definition chr (n : nat) : ascii := Ascii.ascii_of_nat n.
Definition nl : string := String (chr 10) "".
Definition dq : string := String (chr 34) "".

(** [len(s)]. *)
Definition len (s : string) : Z := Z.of_nat (String.length s).

(** [s.startswith(p)] and [s.endswith(p)]. *)
Definition startswith (s p : string) : bool := String.prefix p s.
Definition endswith (s p : string) : bool :=
  String.prefix (String.rev p) (String.rev s).

(** [sub in s]. *)
Fixpoint contains (sub s : string) : bool :=
  String.prefix sub s ||
  match s with
  | "" => false
  | String _ s' => contains sub s'
  end.

(** [s.lower()] on the ASCII range. *)
Definition lower_char (c : ascii) : ascii :=
  let n := Ascii.nat_of_ascii c in
  if (65 <=? n)%nat && (n <=? 90)%nat then Ascii.ascii_of_nat (n + 32) else c.
Fixpoint lower (s : string) : string :=
  match s with
  | "" => ""
  | String c s' => String (lower_char c) (lower s')
  end.

(** [str.isspace] on the ASCII range: tab, newline, vertical tab, form
    feed, carriage return, the four separators 28..31 and the space. *)
Definition isspace (c : ascii) : bool :=
  let n := Ascii.nat_of_ascii c in
  ((9 <=? n)%nat && (n <=? 13)%nat) || ((28 <=? n)%nat && (n <=? 32)%nat).

Fixpoint lstrip (s : string) : string :=
  match s with
  | "" => ""
  | String c s' => if isspace c then lstrip s' else s
  end.
Definition rstrip (s : string) : string := String.rev (lstrip (String.rev s)).
(** [s.strip()]. *)
Definition strip (s : string) : string := rstrip (lstrip s).

(** [s.split(sep)] for a non-empty [sep]: [skip] counts the characters of
    a separator that was recognised and is still to be dropped, [acc] is
    the current piece, reversed. *)
Fixpoint split_go (sep : string) (skip : nat) (acc s : string) : list string :=
  match s with
  | "" => [String.rev acc]
  | String c s' =>
      match skip with
      | S k => split_go sep k acc s'
      | O =>
          if String.prefix sep s
          then String.rev acc :: split_go sep (String.length sep - 1) "" s'
          else split_go sep 0 (String c acc) s'
      end
  end.
Definition split (s sep : string) : list string := split_go sep 0 "" s.

(** [f.readlines()]: the lines of a text, each with its newline kept. *)
Fixpoint readlines_go (acc s : string) : list string :=
  match s with
  | "" => match acc with "" => [] | _ => [String.rev acc] end
  | String c s' =>
      if Ascii.eqb c (chr 10)
      then String.rev (String c acc) :: readlines_go "" s'
      else readlines_go (String c acc) s'
  end.
Definition readlines (s : string) : list string := readlines_go "" s.

(** [s.find(c)] and [s.rfind(c)] for a one-character needle; -1 when
    the character does not occur. *)
Fixpoint find_from (i : Z) (c : ascii) (s : string) : Z :=
  match s with
  | "" => -1
  | String d s' => if Ascii.eqb c d then i else find_from (i + 1) c s'
  end.
Definition find (s : string) (c : ascii) : Z := find_from 0 c s.

Fixpoint rfind_from (i best : Z) (c : ascii) (s : string) : Z :=
  match s with
  | "" => best
  | String d s' => rfind_from (i + 1) (if Ascii.eqb c d then i else best) c s'
  end.
Definition rfind (s : string) (c : ascii) : Z := rfind_from 0 (-1) c s.

(** [s[i:j]] for [0 <= i]. *)
Definition slice (s : string) (i j : Z) : string :=
  String.substring (Z.to_nat i) (Z.to_nat (j - i)) s.

(** [s.replace(old, new)] for a non-empty [old]. *)
Fixpoint replace_go (old new : string) (skip : nat) (s : string) : string :=
  match s with
  | "" => ""
  | String c s' =>
      match skip with
      | S k => replace_go old new k s'
      | O =>
          if String.prefix old s
          then new +:+ replace_go old new (String.length old - 1) s'
          else String c (replace_go old new 0 s')
      end
  end.
Definition replace (s old new : string) : string := replace_go old new 0 s.

(** [sep.join(l)]. *)
Fixpoint join (sep : string) (l : list string) : string :=
  match l with
  | [] => ""
  | [x] => x
  | x :: l' => x +:+ sep +:+ join sep l'
  end.

(** [any(...)] over a list that was already mapped to booleans. *)
Definition any {A} (f : A → bool) (l : list A) : bool := existsb f l.

(** Statements that may raise: a value or the message of the exception. *)
Inductive result (A : Type) : Type :=
| Ok (a : A)
| Raise (msg : string).
Arguments Ok {A} a.
Arguments Raise {A} msg.

Definition bind {A B} (r : result A) (k : A → result B) : result B :=
  match r with
  | Ok a => k a
  | Raise m => Raise m
  end.

(** [try: body except Exception as e: handler(e)]. *)
Definition try_except {A} (body : result A) (handler : string → result A) : result A :=
  match body with
  | Ok a => Ok a
  | Raise m => handler m
  end.

End Py.

(* ================================================================== *)
(** * Pattern catalogs *)
(* ================================================================== *)

(** The four catalogs, in the order of the source: sub-category name and
    its regular expressions. *)

Definition SUSTAINABLE_PATTERNS : list (string * list string) :=
  [("documentation",
      [Py.dq +:+ Py.dq +:+ Py.dq +:+ "[\s\S]*?" +:+ Py.dq +:+ Py.dq +:+ Py.dq;
       "/\*\*[\s\S]*?\*/";
       "/// <summary>[\s\S]*?</summary>";
       "#\s*@param";
       "#\s*@return"]);
    ("testing",
      ["import\s+[\'" +:+ Py.dq +:+ "]testing[\'" +:+ Py.dq +:+ "]";
       "import\s+[\'" +:+ Py.dq +:+ "]pytest[\'" +:+ Py.dq +:+ "]";
       "import\s+[\'" +:+ Py.dq +:+ "]unittest[\'" +:+ Py.dq +:+ "]";
       "@Test";
       "test\w*\([^)]*\)\s*{";
       "assert\w*\(";
       "expect\(";
       "mock\w*\("]);
    ("modularity",
      ["import\s+";
       "from\s+[\w.]+\s+import";
       "require\([\'" +:+ Py.dq +:+ "]";
       "export\s+";
       "class\s+\w+";
       "interface\s+\w+";
       "function\s+\w+";
       "def\s+\w+"]);
    ("error_handling",
      ["try\s*{";
       "try:";
       "catch\s*\(";
       "except";
       "finally";
       "throw\s+new\s+\w+";
       "raise\s+";
       "error\w*\s*=";
       "log\w*\s*\(\s*[\'" +:+ Py.dq +:+ "]error";
       "console\.error"]);
    ("config_management",
      ["\.env";
       "config\.";
       "process\.env";
       "os\.environ";
       "settings\.";
       "constants\.";
       "getenv\("]);
    ("adaptability",
      ["interface\s+\w+";
       "abstract\s+class";
       "extends\s+\w+";
       "implements\s+\w+";
       "@Override";
       "super\(";
       "factory\."]);
    ("security",
      ["sanitize";
       "validate";
       "escape";
       "authenticate";
       "authorize";
       "encrypt";
       "decrypt";
       "hash";
       "token";
       "permission"]);
    ("scalability",
      ["cache";
       "pool";
       "queue";
       "async";
       "await";
       "parallel";
       "concurrent";
       "thread";
       "worker"])].

Definition UNSUSTAINABLE_PATTERNS : list (string * list string) :=
  [("code_smells",
      ["TODO";
       "FIXME";
       "HACK";
       "XXX";
       "WTF";
       "NOSONAR";
       "CHECKSTYLE:OFF"]);
    ("hard_coding",
      ["API_KEY\s*=\s*[\'" +:+ Py.dq +:+ "][^\'" +:+ Py.dq +:+ "]+[\'" +:+ Py.dq +:+ "]";
       "password\s*=\s*[\'" +:+ Py.dq +:+ "][^\'" +:+ Py.dq +:+ "]+[\'" +:+ Py.dq +:+ "]";
       "SECRET\s*=\s*[\'" +:+ Py.dq +:+ "][^\'" +:+ Py.dq +:+ "]+[\'" +:+ Py.dq +:+ "]";
       "http[s]?://[^\s<>" +:+ Py.dq +:+ "\']+";
       "[0-9]{1,3}\.[0-9]{1,3}\.[0-9]{1,3}\.[0-9]{1,3}"]);
    ("long_methods",
      ["function\s+\w+\([^)]*\)\s*{[\s\S]{1000,}}";
       "def\s+\w+\([^)]*\)[\s\S]{1000,}return";
       "public\s+\w+\s+\w+\([^)]*\)\s*{[\s\S]{1000,}}"]);
    ("deep_nesting",
      ["if\s*\([^)]+\)\s*{\s*if\s*\([^)]+\)\s*{\s*if";
       "for\s*\([^)]+\)\s*{\s*for\s*\([^)]+\)\s*{\s*for";
       "while\s*\([^)]+\)\s*{\s*while\s*\([^)]+\)\s*{\s*while"]);
    ("large_classes",
      ["class\s+\w+[^{]*{[\s\S]{3000,}}"]);
    ("naming_issues",
      ["\b[a-z]{1,2}\b";
       "\b[A-Z0-9_]+\b"]);
    ("commented_code",
      ["//\s*[a-zA-Z0-9]+\s*\([^)]*\)";
       "//\s*if\s*\(";
       "//\s*for\s*\(";
       "#\s*[a-zA-Z0-9]+\s*\([^)]*\)"])].

Definition ENVIRONMENTAL_INDICATORS : list (string * list string) :=
  [("high_computation",
      ["train\(";
       "fit\(";
       "\.cuda";
       "gpu";
       "tensorflow";
       "torch";
       "while\s*\(\s*true"]);
    ("resource_efficient",
      ["yield";
       "streaming";
       "lazy";
       "throttle";
       "debounce"]);
    ("energy_awareness",
      ["power";
       "battery";
       "energy";
       "sleep"])].

Definition SOCIAL_INDICATORS : list (string * list string) :=
  [("inclusive_design",
      ["a11y";
       "accessibility";
       "aria-";
       "alt=";
       "i18n";
       "l10n"]);
    ("privacy_focused",
      ["gdpr";
       "consent";
       "privacy";
       "anonymize";
       "pseudonymize"]);
    ("ethical_considerations",
      ["ethic";
       "bias";
       "fairness";
       "diversity";
       "inclusion"])].

(* ================================================================== *)
(** * Data model *)
(* ================================================================== *)

(** A path, kept as its segments: [os.path.join(root, name)] appends a
    segment and [root.split(os.path.sep)] is the list itself. *)
Definition path : Type := list string.

(** A JSON value as [json.loads] builds it; an object keeps its members in
    order, one entry per key. *)
Inductive json : Type :=
| JNull
| JBool (b : bool)
| JNum (n : Z)
| JStr (s : string)
| JArr (l : list json)
| JObj (members : list (string * json)).

(** The library functions the program calls, with whatever behaviour they
    have. *)
Record pylib : Type := {
  (** [len(re.findall(pattern, text))] *)
  re_findall : string → string → nat;
  (** [re.match(pattern, text)] is a match *)
  re_match : string → string → bool;
  (** [re.search(pattern, text)] is a match *)
  re_search : string → string → bool;
  (** [json.loads(text)] *)
  json_loads : string → Py.result json;
  (** [int(text)] *)
  py_int : string → Py.result Z;
  (** the day number of [datetime.strptime(text, "%Y-%m-%d")] *)
  strptime : string → Py.result Z
}.

(** What the file system answers for a path: [open(p).read()] with
    undecodable bytes ignored ([None] when opening raises) and
    [os.path.getsize(p)] ([None] when it raises). *)
Record filestore : Type := {
  open_read : path → option string;
  getsize : path → option nat
}.

(** A directory: its sub-directories and its file names, as [os.scandir]
    lists them. *)
Inductive tree : Type :=
| Node (dirs : list (string * tree)) (files : list string).

(** The [code_analysis] section. *)
Record code_analysis : Type := {
  sustainable : gmap string nat;
  unsustainable : gmap string nat;
  environmental : gmap string nat;
  social : gmap string nat;
  total_lines : nat;
  file_count : nat;
  file_types : gmap string nat;
  avg_file_size : Q;
  function_count : nat;
  class_count : nat;
  comment_ratio : Q
}.

(* ================================================================== *)
(** * File classifier: [get_code_files] *)
(* ================================================================== *)

(** [os.walk(top)], top-down. For every directory it yields
    [(root, dirs, files)], lets the consumer rewrite [dirs] in place, and
    then descends into the names that are left. The only rewriting this
    program does is a filter on the name, [keep]; a consumer that leaves
    [dirs] alone has [keep] constantly true. The [dirs] of a yielded triple
    are given as the consumer leaves them. *)
Fixpoint os_walk (keep : string → bool) (root : path) (t : tree)
  : list (path * list string * list string) :=
  match t with
  | Node dirs files =>
      (root, filter (λ d, keep d = true) (map fst dirs), files) ::
      (fix descend (ds : list (string * tree)) :=
         match ds with
         | [] => []
         | (d, sub) :: ds' =>
             (if keep d then os_walk keep (root ++ [d]) sub else []) ++ descend ds'
         end) dirs
  end.

Definition default_exclude_dirs : list string :=
  ["node_modules"; ".git"; "vendor"; "__pycache__"; "build"; "dist"; "venv"; "env"; ".venv"].

Definition code_extensions : list string :=
  [".py"; ".js"; ".jsx"; ".ts"; ".tsx"; ".java"; ".cs"; ".go"; ".rb"; ".php";
   ".cpp"; ".c"; ".h"; ".swift"; ".kt"; ".rs"].

(** [d not in exclude_dirs]. *)
Definition not_in (exclude_dirs : list string) (d : string) : bool :=
  negb (existsb (String.eqb d) exclude_dirs).

(** [any(filename.endswith(ext) for ext in exts)]. *)
Definition has_extension (exts : list string) (filename : string) : bool :=
  Py.any (Py.endswith filename) exts.

Definition get_code_files_in (exclude_dirs : list string) (repo_dir : path) (t : tree)
  : list path :=
  flat_map
    (λ '(root, _, filenames),
       map (λ filename, root ++ [filename])
           (filter (λ filename, has_extension code_extensions filename = true) filenames))
    (os_walk (not_in exclude_dirs) repo_dir t).

(** [get_code_files(repo_dir)], with [exclude_dirs=None]. *)
Definition get_code_files (repo_dir : path) (t : tree) : list path :=
  get_code_files_in default_exclude_dirs repo_dir t.

(* ================================================================== *)
(** * Pattern analyzer: [analyze_code_patterns] *)
(* ================================================================== *)

(** [{k: 0 for k in CATALOG}]. *)
Definition zero_counts (catalog : list (string * list string)) : gmap string nat :=
  list_to_map (map (λ '(k, _), (k, 0%nat)) catalog).

(** [os.path.splitext(p)[1]] of a path: the part of the last segment from
    its last dot on, unless only dots come before that dot. *)
Fixpoint all_dots (s : string) : bool :=
  match s with
  | "" => true
  | String c s' => Ascii.eqb c "." && all_dots s'
  end.
Definition splitext_ext (p : path) : string :=
  match last p with
  | None => ""
  | Some name =>
      let d := Py.rfind name "." in
      if (0 <=? d) && negb (all_dots (Py.slice name 0 d))
      then Py.slice name d (Py.len name)
      else ""
  end.

Definition comment_patterns : list string :=
  ["^\s*#"; "^\s*//"; "^\s*/\*"; "^\s*\*"; "^\s*\*/"].

(** The dictionary [results] together with the two local accumulators of
    the loop. *)
Record pattern_state : Type := {
  results : code_analysis;
  total_size : nat;
  total_comment_lines : nat
}.

Section PatternAnalyzer.
Context (L : pylib) (fs : filestore).

(** The two nested loops over one catalog:
    [counts[category] += len(re.findall(pattern, content))]. *)
Definition count_catalog (catalog : list (string * list string)) (content : string)
    (counts : gmap string nat) : gmap string nat :=
  foldl
    (λ counts '(category, patterns),
       foldl
         (λ counts pattern,
            alter (λ n, n + re_findall L pattern content)%nat category counts)
         counts patterns)
    counts catalog.

Definition initial_results (files : list path) : code_analysis :=
  {| sustainable := zero_counts SUSTAINABLE_PATTERNS;
     unsustainable := zero_counts UNSUSTAINABLE_PATTERNS;
     environmental := zero_counts ENVIRONMENTAL_INDICATORS;
     social := zero_counts SOCIAL_INDICATORS;
     total_lines := 0;
     file_count := length files;
     file_types := ∅;
     avg_file_size := 0;
     function_count := 0;
     class_count := 0;
     comment_ratio := 0 |}.

(** The body of the [try] for one file. An exception leaves the loop body
    where it is raised and keeps what was already written: [open] raises
    before anything is touched, [os.path.getsize] after [total_lines] was
    increased. *)
Definition process_file (st : pattern_state) (file_path : path) : pattern_state :=
  match open_read fs file_path with
  | None => st
  | Some content =>
      let r := results st in
      let lines := Py.split content Py.nl in
      let line_count := length lines in
      let r1 :=
        {| sustainable := sustainable r; unsustainable := unsustainable r;
           environmental := environmental r; social := social r;
           total_lines := total_lines r + line_count;
           file_count := file_count r; file_types := file_types r;
           avg_file_size := avg_file_size r;
           function_count := function_count r; class_count := class_count r;
           comment_ratio := comment_ratio r |} in
      match getsize fs file_path with
      | None =>
          {| results := r1; total_size := total_size st;
             total_comment_lines := total_comment_lines st |}
      | Some file_size =>
          let comment_lines :=
            length (filter (λ line, Py.any (λ pattern, re_match L pattern line)
                                           comment_patterns = true) lines) in
          let function_matches := re_findall L "(function\s+\w+|def\s+\w+)" content in
          let class_matches := re_findall L "(class\s+\w+)" content in
          let ext := splitext_ext file_path in
          {| results :=
               {| sustainable := count_catalog SUSTAINABLE_PATTERNS content (sustainable r);
                  unsustainable := count_catalog UNSUSTAINABLE_PATTERNS content (unsustainable r);
                  environmental := count_catalog ENVIRONMENTAL_INDICATORS content (environmental r);
                  social := count_catalog SOCIAL_INDICATORS content (social r);
                  total_lines := total_lines r + line_count;
                  file_count := file_count r;
                  file_types := <[ext := (file_types r !!! ext + 1)%nat]> (file_types r);
                  avg_file_size := avg_file_size r;
                  function_count := function_count r + function_matches;
                  class_count := class_count r + class_matches;
                  comment_ratio := comment_ratio r |};
             total_size := total_size st + file_size;
             total_comment_lines := total_comment_lines st + comment_lines |}
      end
  end%nat.

Definition nat_div (a b : nat) : Q := inject_Z (Z.of_nat a) / inject_Z (Z.of_nat b).

Definition pattern_loop (files : list path) : pattern_state :=
  foldl process_file
    {| results := initial_results files; total_size := 0; total_comment_lines := 0 |}
    files.

Definition analyze_code_patterns (files : list path) : code_analysis :=
  let st := pattern_loop files in
  let r := results st in
  {| sustainable := sustainable r; unsustainable := unsustainable r;
     environmental := environmental r; social := social r;
     total_lines := total_lines r;
     file_count := file_count r; file_types := file_types r;
     avg_file_size :=
       if (0 <? length files)%nat then nat_div (total_size st) (length files)
       else avg_file_size r;
     function_count := function_count r; class_count := class_count r;
     comment_ratio :=
       if (0 <? total_lines r)%nat then nat_div (total_comment_lines st) (total_lines r)
       else comment_ratio r |}.

End PatternAnalyzer.

(* ================================================================== *)
(** * Queries on the working copy *)
(* ================================================================== *)

(** The sub-directory reached from [t] along [rel]. *)
Fixpoint lookup_dir (t : tree) (rel : list string) : option tree :=
  match rel with
  | [] => Some t
  | d :: rel' =>
      match t with
      | Node dirs _ =>
          match list_find (λ e, fst e = d) dirs with
          | Some (_, (_, sub)) => lookup_dir sub rel'
          | None => None
          end
      end
  end.

Definition tree_files (t : tree) : list string :=
  match t with Node _ files => files end.
Definition tree_dirs (t : tree) : list string :=
  match t with Node dirs _ => map fst dirs end.

(** [os.path.isdir], [os.path.isfile] and [os.path.exists] of
    [os.path.join(repo_dir, f)], where [f] may itself hold separators. *)
Definition os_path_isdir (t : tree) (f : string) : bool :=
  bool_decide (is_Some (lookup_dir t (Py.split f "/"))).
Definition os_path_isfile (t : tree) (f : string) : bool :=
  let segs := Py.split f "/" in
  match last segs, lookup_dir t (removelast segs) with
  | Some name, Some d => existsb (String.eqb name) (tree_files d)
  | _, _ => false
  end.
Definition os_path_exists (t : tree) (f : string) : bool :=
  os_path_isfile t f || os_path_isdir t f.

(** [os.listdir(repo_dir)]. *)
Definition os_listdir (t : tree) : list string := tree_dirs t ++ tree_files t.

(* ================================================================== *)
(** * Dependency analyzer: [analyze_dependency_graph] *)
(* ================================================================== *)

(** The counts of the [dependency_analysis] section. The lock-file block of
    the source writes only the [dependency_graph] sub-dictionary and keeps
    its exceptions to itself; it is left out of the embedding. *)
Record dependency_data : Type := {
  total_dependencies : nat;
  direct_dependencies : nat;
  dev_dependencies : nat;
  outdated_dependencies : nat
}.

(** [d.get(key, {})]: only a dictionary has [get]. *)
Definition json_get (d : json) (key : string) : Py.result json :=
  match d with
  | JObj members =>
      match list_find (λ e, fst e = key) members with
      | Some (_, (_, v)) => Py.Ok v
      | None => Py.Ok (JObj [])
      end
  | _ => Py.Raise "AttributeError: object has no attribute 'get'"
  end.

(** [len(v)]: defined on dictionaries, lists and strings. *)
Definition json_len (v : json) : Py.result nat :=
  match v with
  | JObj members => Py.Ok (length members)
  | JArr l => Py.Ok (length l)
  | JStr s => Py.Ok (String.length s)
  | _ => Py.Raise "TypeError: object has no len()"
  end.

(** [[line.strip() for line in requirements
      if line.strip() and not line.startswith('#')]]. *)
Definition direct_deps (requirements : list string) : list string :=
  map Py.strip
      (filter (λ line, negb (String.eqb (Py.strip line) "")
                       && negb (Py.startswith line "#") = true) requirements).

Section DependencyAnalyzer.
Context (L : pylib).
(** [open(p, encoding='utf-8').read()]: [None] when opening or decoding
    raises. *)
Context (open_strict : path → option string).
Context (repo_dir : path) (t : tree).

(** The [package.json] block. Each assignment that was reached before an
    exception stays in place. *)
Definition package_json_block (dd : dependency_data) : dependency_data :=
  if os_path_exists t "package.json" then
    match open_strict (repo_dir ++ ["package.json"]) with
    | None => dd
    | Some text =>
        match json_loads L text with
        | Py.Raise _ => dd
        | Py.Ok package_data =>
            match json_get package_data "dependencies" with
            | Py.Raise _ => dd
            | Py.Ok dependencies =>
                match json_get package_data "devDependencies" with
                | Py.Raise _ => dd
                | Py.Ok dev_deps =>
                    match json_len dependencies with
                    | Py.Raise _ => dd
                    | Py.Ok n_direct =>
                        let dd1 :=
                          {| total_dependencies := total_dependencies dd;
                             direct_dependencies := n_direct;
                             dev_dependencies := dev_dependencies dd;
                             outdated_dependencies := outdated_dependencies dd |} in
                        match json_len dev_deps with
                        | Py.Raise _ => dd1
                        | Py.Ok n_dev =>
                            {| total_dependencies := (n_direct + n_dev)%nat;
                               direct_dependencies := n_direct;
                               dev_dependencies := n_dev;
                               outdated_dependencies := outdated_dependencies dd |}
                        end
                    end
                end
            end
        end
    end
  else dd.

(** The [requirements.txt] block. *)
Definition requirements_block (dd : dependency_data) : dependency_data :=
  if os_path_exists t "requirements.txt" then
    match open_strict (repo_dir ++ ["requirements.txt"]) with
    | None => dd
    | Some text =>
        let n := length (direct_deps (Py.readlines text)) in
        {| total_dependencies := n;
           direct_dependencies := n;
           dev_dependencies := dev_dependencies dd;
           outdated_dependencies := outdated_dependencies dd |}
    end
  else dd.

Definition analyze_dependency_graph : dependency_data :=
  requirements_block
    (package_json_block
       {| total_dependencies := 0; direct_dependencies := 0;
          dev_dependencies := 0; outdated_dependencies := 0 |}).

End DependencyAnalyzer.

(* ================================================================== *)
(** * Test coverage analyzer: [check_test_coverage] *)
(* ================================================================== *)

Record coverage_data : Type := {
  has_tests : bool;
  test_files : nat;
  test_to_code_ratio : Q;
  test_lines : nat;
  test_frameworks : gset string;
  has_coverage_config : bool
}.

Definition test_dirs : list string :=
  ["tests"; "test"; "__tests__"; "spec"; "unit_tests"; "integration_tests"; "e2e"].

Definition test_patterns : list string :=
  ["*_test.py"; "*_spec.js"; "test_*.py"; "*Test.java"; "*Spec.js"; "*_test.go"; "*_test.rb"].

Definition test_framework_patterns : list (string * string) :=
  [("pytest", "import\s+pytest");
   ("jest", "import\s+.*\s+from\s+[\'" +:+ Py.dq +:+ "]@testing-library");
   ("mocha", "(describe|it)\s*\(");
   ("junit", "import\s+.*\s+from\s+[\'" +:+ Py.dq +:+ "]junit");
   ("unittest", "import\s+unittest");
   ("rspec", "RSpec\.");
   ("go_test", "func\s+Test\w+\(")].

(** The extensions [check_test_coverage] takes for code; shorter than the
    list of the file classifier. *)
Definition coverage_extensions : list string :=
  [".py"; ".js"; ".jsx"; ".ts"; ".tsx"; ".java"; ".cs"; ".go"; ".rb"; ".php"].

Definition coverage_files : list string :=
  [".coveragerc"; "coverage.xml"; "coverage.json"; "jest.config.js"; "cypress.json";
   "codecov.yml"; ".nycrc"].

(** The four accumulators of the walk. *)
Record coverage_state : Type := {
  cs_test_files : list path;
  cs_code_files : list path;
  cs_test_lines_count : nat;
  cs_detected_frameworks : gset string
}.

Section TestCoverage.
Context (L : pylib) (fs : filestore).

(** [any(test_dir in root.split(os.path.sep) for test_dir in test_dirs)]. *)
Definition in_test_dir (root : path) : bool :=
  Py.any (λ test_dir, existsb (String.eqb test_dir) root) test_dirs.

(** [any(re.match(pattern.replace('*', '.*'), file) for pattern in test_patterns)]. *)
Definition matches_test_pattern (file : string) : bool :=
  Py.any (λ pattern, re_match L (Py.replace pattern "*" ".*") file) test_patterns.

(** The body of the inner loop for one file of the directory [root]. *)
Definition coverage_file (root : path) (st : coverage_state) (file : string)
  : coverage_state :=
  let file_path := root ++ [file] in
  if negb (has_extension coverage_extensions file) then st
  else if in_test_dir root || matches_test_pattern file then
    let tf := cs_test_files st ++ [file_path] in
    match open_read fs file_path with
    | None =>
        {| cs_test_files := tf; cs_code_files := cs_code_files st;
           cs_test_lines_count := cs_test_lines_count st;
           cs_detected_frameworks := cs_detected_frameworks st |}
    | Some content =>
        {| cs_test_files := tf; cs_code_files := cs_code_files st;
           cs_test_lines_count :=
             (cs_test_lines_count st + length (Py.split content Py.nl))%nat;
           cs_detected_frameworks :=
             foldl (λ s '(framework, pattern),
                      if re_search L pattern content then s ∪ {[framework]} else s)
                   (cs_detected_frameworks st) test_framework_patterns |}
    end
  else
    {| cs_test_files := cs_test_files st; cs_code_files := cs_code_files st ++ [file_path];
       cs_test_lines_count := cs_test_lines_count st;
       cs_detected_frameworks := cs_detected_frameworks st |}.

Definition coverage_walk (repo_dir : path) (t : tree) : coverage_state :=
  foldl
    (λ st '(root, _, files), foldl (coverage_file root) st files)
    {| cs_test_files := []; cs_code_files := []; cs_test_lines_count := 0;
       cs_detected_frameworks := ∅ |}
    (os_walk (λ _, true) repo_dir t).

Definition check_test_coverage (repo_dir : path) (t : tree) : coverage_data :=
  let st := coverage_walk repo_dir t in
  {| has_tests := (0 <? length (cs_test_files st))%nat;
     test_files := length (cs_test_files st);
     test_to_code_ratio :=
       if (0 <? length (cs_code_files st))%nat
       then nat_div (length (cs_test_files st)) (length (cs_code_files st))
       else 0;
     test_lines := cs_test_lines_count st;
     test_frameworks := cs_detected_frameworks st;
     has_coverage_config := Py.any (os_path_exists t) coverage_files |}.

End TestCoverage.

(* ================================================================== *)
(** * Commit history analyzer: [analyze_commit_history] *)
(* ================================================================== *)

Record commit_data : Type := {
  total_commits : Z;
  commit_frequency : Q;
  active_days : nat;
  contributors : nat;
  avg_commit_size : Z;
  commit_message_quality : Q;
  test_driven_commits : nat
}.

(** What the four [git] commands print, or the exception [subprocess.run]
    raises for a non-zero exit: [rev-list --count HEAD],
    [log --format=%ad --date=short], [log --format=%ae] and
    [log --format=%s --name-only]. *)
Record git_history : Type := {
  git_rev_list_count : Py.result string;
  git_log_dates : Py.result string;
  git_log_emails : Py.result string;
  git_log_subjects : Py.result string
}.

Definition good_message_patterns : list string :=
  ["^(feat|fix|docs|style|refactor|test|chore)(\(.+\))?:"; "^[A-Z]"; ".{10,}"].

(** [len(set(l))]. *)
Definition distinct (l : list string) : nat := size (list_to_set l : gset string).

Section CommitHistory.
Context (L : pylib) (g : git_history).

(** The loop over [commit_logs], two entries at a time; a last entry
    without a partner is left alone. *)
Fixpoint scan_commit_logs (commit_logs : list string) (good_messages test_commits : nat)
  : nat * nat :=
  match commit_logs with
  | message :: names :: rest =>
      let files := Py.split names Py.nl in
      scan_commit_logs rest
        (if Py.any (λ pattern, re_search L pattern message) good_message_patterns
         then good_messages + 1 else good_messages)%nat
        (if Py.any (λ f, Py.contains "test" (Py.lower f)) files
         then test_commits + 1 else test_commits)%nat
  | _ => (good_messages, test_commits)
  end.

(** [max(1, days_diff / 7)]. *)
Definition weeks_of (days_diff : Z) : Q := Qmax 1 (inject_Z days_diff / 7).

(** The frequency block, with its own [try]. *)
Definition frequency_block (cd : commit_data) (commit_dates : list string) : commit_data :=
  match commit_dates with
  | [] => cd
  | newest :: _ =>
      match strptime L (List.last commit_dates ""), strptime L newest with
      | Py.Ok first_date, Py.Ok last_date =>
          let days_diff := last_date - first_date + 1 in
          let weeks := weeks_of days_diff in
          {| total_commits := total_commits cd;
             commit_frequency := inject_Z (total_commits cd) / weeks;
             active_days := active_days cd; contributors := contributors cd;
             avg_commit_size := avg_commit_size cd;
             commit_message_quality := commit_message_quality cd;
             test_driven_commits := test_driven_commits cd |}
      | _, _ => cd
      end
  end.

Definition initial_commit_data : commit_data :=
  {| total_commits := 0; commit_frequency := 0; active_days := 0; contributors := 0;
     avg_commit_size := 0; commit_message_quality := 0; test_driven_commits := 0 |}.

(** The outer [try]: an exception ends the analysis and leaves the fields
    written so far. *)
Definition analyze_commit_history : commit_data :=
  let cd0 := initial_commit_data in
  match git_rev_list_count g with
  | Py.Raise _ => cd0
  | Py.Ok out_count =>
  match py_int L (Py.strip out_count) with
  | Py.Raise _ => cd0
  | Py.Ok n =>
  let cd1 :=
    {| total_commits := n; commit_frequency := commit_frequency cd0;
       active_days := active_days cd0; contributors := contributors cd0;
       avg_commit_size := avg_commit_size cd0;
       commit_message_quality := commit_message_quality cd0;
       test_driven_commits := test_driven_commits cd0 |} in
  match git_log_dates g with
  | Py.Raise _ => cd1
  | Py.Ok out_dates =>
  let commit_dates := Py.split (Py.strip out_dates) Py.nl in
  let cd2 :=
    {| total_commits := total_commits cd1; commit_frequency := commit_frequency cd1;
       active_days := distinct commit_dates; contributors := contributors cd1;
       avg_commit_size := avg_commit_size cd1;
       commit_message_quality := commit_message_quality cd1;
       test_driven_commits := test_driven_commits cd1 |} in
  let cd3 := frequency_block cd2 commit_dates in
  match git_log_emails g with
  | Py.Raise _ => cd3
  | Py.Ok out_emails =>
  let commit_emails := Py.split (Py.strip out_emails) Py.nl in
  let cd4 :=
    {| total_commits := total_commits cd3; commit_frequency := commit_frequency cd3;
       active_days := active_days cd3; contributors := distinct commit_emails;
       avg_commit_size := avg_commit_size cd3;
       commit_message_quality := commit_message_quality cd3;
       test_driven_commits := test_driven_commits cd3 |} in
  match git_log_subjects g with
  | Py.Raise _ => cd4
  | Py.Ok out_subjects =>
  let commit_logs := Py.split (Py.strip out_subjects) (Py.nl +:+ Py.nl) in
  let '(good_messages, test_commits) := scan_commit_logs commit_logs 0 0 in
  if 0 <? total_commits cd4 then
    {| total_commits := total_commits cd4; commit_frequency := commit_frequency cd4;
       active_days := active_days cd4; contributors := contributors cd4;
       avg_commit_size := avg_commit_size cd4;
       commit_message_quality :=
         inject_Z (Z.of_nat good_messages) / inject_Z (total_commits cd4);
       test_driven_commits := test_commits |}
  else cd4
  end end end end end.

End CommitHistory.

(* ================================================================== *)
(** * Structure analyzer: [analyze_repo_structure] *)
(* ================================================================== *)

Record structure : Type := {
  has_readme : bool;
  has_license : bool;
  has_gitignore : bool;
  has_ci_config : bool;
  has_dependency_manager : bool;
  has_docker : bool;
  has_contribution_guide : bool;
  has_code_of_conduct : bool;
  has_security_policy : bool;
  folder_depth : nat;
  dependency_count : nat;
  architecture_score : Q
}.

Definition ci_files : list string :=
  [".travis.yml"; ".github/workflows"; "circleci"; "jenkinsfile"].

Definition dependency_manifests : list string :=
  ["package.json"; "requirements.txt"; "Gemfile"; "composer.json"].

(** [score += 1] under [if flag]. *)
Definition bump (flag : bool) (score : Z) : Z := if flag then score + 1 else score.

Definition analyze_repo_structure (repo_dir : path) (t : tree) : structure :=
  let readme := Py.any (os_path_exists t) ["README.md"; "README"; "readme.md"] in
  let license := Py.any (os_path_exists t) ["LICENSE"; "LICENSE.md"; "license.txt"] in
  let gitignore := os_path_exists t ".gitignore" in
  let docker :=
    Py.any (os_path_exists t) ["Dockerfile"; "docker-compose.yml"; ".dockerignore"] in
  let contribution_guide :=
    Py.any (os_path_exists t)
           ["CONTRIBUTING.md"; "CONTRIBUTE.md"; ".github/CONTRIBUTING.md"] in
  let code_of_conduct :=
    Py.any (os_path_exists t) ["CODE_OF_CONDUCT.md"; ".github/CODE_OF_CONDUCT.md"] in
  let security_policy :=
    Py.any (os_path_exists t) ["SECURITY.md"; ".github/SECURITY.md"; "security.md"] in
  let ci_config :=
    Py.any (λ f, if os_path_isfile t f then os_path_exists t f else os_path_isdir t f)
           ci_files in
  let dependency_manager := Py.any (os_path_exists t) dependency_manifests in
  let max_depth :=
    foldl (λ max_depth '(root, _, _),
             let depth := (length root - length repo_dir)%nat in
             if (max_depth <? depth)%nat then depth else max_depth)
          0%nat (os_walk (λ _, true) repo_dir t) in
  let dep_files :=
    filter (λ f, existsb (String.eqb f) dependency_manifests = true) (os_listdir t) in
  let score := 0 in
  let score := bump readme score in
  let score := bump license score in
  let score := bump gitignore score in
  let score := bump ci_config score in
  let score := bump dependency_manager score in
  let score := bump docker score in
  let score := bump contribution_guide score in
  let score := bump code_of_conduct score in
  let score := bump security_policy score in
  {| has_readme := readme;
     has_license := license;
     has_gitignore := gitignore;
     has_ci_config := ci_config;
     has_dependency_manager := dependency_manager;
     has_docker := docker;
     has_contribution_guide := contribution_guide;
     has_code_of_conduct := code_of_conduct;
     has_security_policy := security_policy;
     folder_depth := max_depth;
     dependency_count := length dep_files;
     architecture_score := inject_Z score / 9 |}.

(** The nine presence flags of a [structure], in the order of the record. *)
Definition structure_flags (s : structure) : list bool :=
  [has_readme s; has_license s; has_gitignore s; has_ci_config s;
   has_dependency_manager s; has_docker s; has_contribution_guide s;
   has_code_of_conduct s; has_security_policy s].

(** How many flags of a list are set. *)
Definition count_true (flags : list bool) : nat := length (filter (λ b, b = true) flags).

(* ================================================================== *)
(** * Qualitative scorer: [derive_gemini_scores] *)
(* ================================================================== *)

Definition max_total_chars : Z := 500000.

(** A path as the text the f-string prints. *)
Definition path_str (p : path) : string := Py.join "/" p.

(** [f"File: {file}\n{code}\n"]. *)
Definition code_sample (file : path) (code : string) : string :=
  "File: " +:+ path_str file +:+ Py.nl +:+ code +:+ Py.nl.

(** The instruction template before and after [{aggregated_code}]. *)
Definition prompt_head : string :=
  Py.join Py.nl
    ["";
     "You are an expert code sustainability evaluator. Given the repository code samples, provide an evaluation with numerical scores (0-100) for the following metrics:";
     "";
     "Please respond ONLY with a JSON object with the following structure and no other text:";
     "{";
     "  " +:+ Py.dq +:+ "overall_sustainability" +:+ Py.dq +:+ ": [score],";
     "  " +:+ Py.dq +:+ "documentation_quality" +:+ Py.dq +:+ ": [score],";
     "  " +:+ Py.dq +:+ "testing_robustness" +:+ Py.dq +:+ ": [score],";
     "  " +:+ Py.dq +:+ "modularity_and_design" +:+ Py.dq +:+ ": [score],";
     "  " +:+ Py.dq +:+ "error_handling" +:+ Py.dq +:+ ": [score],";
     "  " +:+ Py.dq +:+ "security_best_practices" +:+ Py.dq +:+ ": [score],";
     "  " +:+ Py.dq +:+ "scalability_potential" +:+ Py.dq +:+ ": [score],";
     "  " +:+ Py.dq +:+ "environmental_efficiency" +:+ Py.dq +:+ ": [score],";
     "  " +:+ Py.dq +:+ "social_inclusiveness" +:+ Py.dq +:+ ": [score],";
     "  " +:+ Py.dq +:+ "critical_issues" +:+ Py.dq +:+ ": [" +:+ Py.dq +:+ "issue1" +:+ Py.dq +:+ ", " +:+ Py.dq +:+ "issue2" +:+ Py.dq +:+ ", ...],";
     "  " +:+ Py.dq +:+ "improvement_suggestions" +:+ Py.dq +:+ ": [" +:+ Py.dq +:+ "suggestion1" +:+ Py.dq +:+ ", " +:+ Py.dq +:+ "suggestion2" +:+ Py.dq +:+ ", ...]";
     "}";
     "";
     "Repository code:";
     ""].
Definition prompt_tail : string := Py.nl.

Section QualitativeScorer.
Context (L : pylib) (fs : filestore).
(** [client.models.generate_content(...)] followed by [response.text]:
    the text of the response ([None] when the response carries no text),
    or the exception the call raises. *)
Context (generate_content : string → Py.result (option string)).

(** The loop that gathers [code_samples]: a file that cannot be read is
    passed over, the first file that does not fit ends the loop. *)
Fixpoint collect_samples (files : list path) (total_chars : Z) (code_samples : list string)
  : list string * Z :=
  match files with
  | [] => (code_samples, total_chars)
  | file :: rest =>
      match open_read fs file with
      | None => collect_samples rest total_chars code_samples
      | Some code =>
          if total_chars + Py.len code <? max_total_chars
          then collect_samples rest (total_chars + Py.len code)
                               (code_samples ++ [code_sample file code])
          else (code_samples, total_chars)
      end
  end.

Definition aggregated_code (files : list path) : string :=
  Py.join Py.nl (fst (collect_samples files 0 [])).

Definition prompt (files : list path) : string :=
  prompt_head +:+ aggregated_code files +:+ prompt_tail.

Definition raw_response (text : string) : json := JObj [("raw_response", JStr text)].

(** The handler of the inner [except]: look for the outermost braces. *)
Definition extract_json (text : option string) : Py.result json :=
  match text with
  | None => Py.Raise "AttributeError: 'NoneType' object has no attribute 'find'"
  | Some text =>
      let json_start := Py.find text "{" in
      let json_end := Py.rfind text "}" + 1 in
      if (0 <=? json_start) && (json_start <? json_end) then
        Py.try_except
          (json_loads L (Py.slice text json_start json_end))
          (λ _, Py.Ok (raw_response text))
      else Py.Ok (raw_response text)
  end.

Definition derive_gemini_scores (files : list path) : Py.result json :=
  Py.try_except
    (Py.bind (generate_content (prompt files)) (λ text,
       Py.try_except
         (match text with
          | Some s => json_loads L s
          | None => Py.Raise "TypeError: the JSON object must be str, bytes or bytearray"
          end)
         (λ _, extract_json text)))
    (λ e, Py.Ok (JObj [("error", JStr e)])).

End QualitativeScorer.

(* ================================================================== *)
(** * Orchestrator: [analyze_repository] and the main loop *)
(* ================================================================== *)

(** The section of the complexity analyzer. It comes from an external
    tool; the analyzer catches every exception and returns this record. *)
Record complexity_data : Type := {
  cx_average : Q;
  cx_max : Z;
  cx_complex_functions : nat;
  cx_maintainability_index : Q;
  cx_halstead_volume : Q;
  cx_halstead_difficulty : Q;
  cx_halstead_effort : Q
}.

Record metadata : Type := {
  md_country : string;
  md_org : string;
  md_repo_link : string
}.

(** One analyzed repository. [analyze_repository] builds it without
    [metadata]; the main loop adds that key. *)
Record overall_analysis : Type := {
  oa_code_analysis : code_analysis;
  oa_complexity_analysis : complexity_data;
  oa_dependency_analysis : dependency_data;
  oa_test_coverage : coverage_data;
  oa_commit_history : commit_data;
  oa_repo_structure : structure;
  oa_gemini_scores : json;
  oa_metadata : option metadata
}.

(** What a successful [git clone] leaves in the target directory, and
    what the tools answer when run on it. *)
Record working_copy : Type := {
  wc_tree : tree;
  wc_files : filestore;
  wc_open_strict : path → option string;
  wc_git : git_history;
  wc_complexity : complexity_data
}.

(** The surroundings of a run: what cloning a link gives ([None] when
    [git clone] fails), the model service, and the directory that
    [tempfile.TemporaryDirectory] hands out for the i-th repository. *)
Record world : Type := {
  clone : string → option working_copy;
  generate : string → Py.result (option string);
  temp_dir : nat → path
}.

Record repo_info : Type := {
  country : string;
  org : string;
  repo_link : string
}.

(** The state of the main loop: the collected records, the per-country
    counter and the files written so far, newest last. *)
Record main_state : Type := {
  ms_results : list overall_analysis;
  ms_country_repo_count : gmap string nat;
  ms_written : list (path * overall_analysis)
}.

Definition output_dir : path := ["analysis_results"].

Section Orchestrator.
Context (L : pylib) (w : world).

Definition analyze_repository (repo_url : string) (target_dir : path)
  : Py.result (option overall_analysis) :=
  match clone w repo_url with
  | None => Py.Ok None
  | Some wc =>
      let files := get_code_files target_dir (wc_tree wc) in
      match files with
      | [] => Py.Ok None
      | _ =>
          let code_analysis := analyze_code_patterns L (wc_files wc) files in
          let complexity_analysis := wc_complexity wc in
          let dependency_analysis :=
            analyze_dependency_graph L (wc_open_strict wc) target_dir (wc_tree wc) in
          let test_coverage := check_test_coverage L (wc_files wc) target_dir (wc_tree wc) in
          let commit_history := analyze_commit_history L (wc_git wc) in
          let repo_structure := analyze_repo_structure target_dir (wc_tree wc) in
          Py.bind (derive_gemini_scores L (wc_files wc) (generate w) files)
            (λ gemini_scores,
               Py.Ok (Some {| oa_code_analysis := code_analysis;
                              oa_complexity_analysis := complexity_analysis;
                              oa_dependency_analysis := dependency_analysis;
                              oa_test_coverage := test_coverage;
                              oa_commit_history := commit_history;
                              oa_repo_structure := repo_structure;
                              oa_gemini_scores := gemini_scores;
                              oa_metadata := None |}))
      end
  end.

(** [f"{country}_{repo_name}.json"] under [output_dir]. *)
Definition result_path (info : repo_info) : path :=
  let repo_name := Py.replace (List.last (Py.split (repo_link info) "/") "") ".git" "" in
  output_dir ++ [country info +:+ "_" +:+ repo_name +:+ ".json"].

(** One turn of the loop over [enumerate(repos)]. *)
Definition main_step (st : main_state) (i : nat) (info : repo_info)
  : Py.result main_state :=
  if (30 <=? ms_country_repo_count st !!! country info)%nat then Py.Ok st
  else
    Py.bind (analyze_repository (repo_link info) (temp_dir w i ++ ["repo"]))
      (λ analysis,
         match analysis with
         | Some a =>
             let a' :=
               {| oa_code_analysis := oa_code_analysis a;
                  oa_complexity_analysis := oa_complexity_analysis a;
                  oa_dependency_analysis := oa_dependency_analysis a;
                  oa_test_coverage := oa_test_coverage a;
                  oa_commit_history := oa_commit_history a;
                  oa_repo_structure := oa_repo_structure a;
                  oa_gemini_scores := oa_gemini_scores a;
                  oa_metadata :=
                    Some {| md_country := country info; md_org := org info;
                            md_repo_link := repo_link info |} |} in
             Py.Ok {| ms_results := ms_results st ++ [a'];
                      ms_country_repo_count :=
                        <[country info :=
                            (ms_country_repo_count st !!! country info + 1)%nat]>
                          (ms_country_repo_count st);
                      ms_written := ms_written st ++ [(result_path info, a')] |}
         | None => Py.Ok st
         end).

Fixpoint main_loop (st : main_state) (i : nat) (repos : list repo_info)
  : Py.result main_state :=
  match repos with
  | [] => Py.Ok st
  | info :: rest => Py.bind (main_step st i info) (λ st', main_loop st' (S i) rest)
  end.

(** The whole run; the second component is what [all_results.json]
    receives. *)
Definition main (repos : list repo_info)
  : Py.result (main_state * list overall_analysis) :=
  Py.bind
    (main_loop {| ms_results := []; ms_country_repo_count := ∅; ms_written := [] |} 0 repos)
    (λ st, Py.Ok (st, ms_results st)).

End Orchestrator.

(* ================================================================== *)
(** * A sample library *)
(* ================================================================== *)

(** An instance of [pylib] on which the model can be run. It covers a
    part of what the Python functions accept and agrees with them there:
    regular expressions made of literal characters, [.] and [.*] for
    [re.match] and [re.search], patterns without metacharacters for
    [re.findall], JSON without string escapes and fractions, decimal
    integers, and dates written [YYYY-MM-DD]. *)
Module Sample.

Definition digit_of (c : ascii) : option Z :=
  let n := Ascii.nat_of_ascii c in
  if (48 <=? n)%nat && (n <=? 57)%nat then Some (Z.of_nat (n - 48)) else None.

Fixpoint digits_go (acc : Z) (s : string) : option Z :=
  match s with
  | "" => Some acc
  | String c s' =>
      match digit_of c with
      | Some d => digits_go (10 * acc + d) s'
      | None => None
      end
  end.
(** A non-empty run of decimal digits. *)
Definition digits (s : string) : option Z :=
  match s with "" => None | _ => digits_go 0 s end.

Definition int (text : string) : Py.result Z :=
  let s := Py.strip text in
  let r := match s with
           | String "-" s' => option_map Z.opp (digits s')
           | String "+" s' => digits s'
           | _ => digits s
           end in
  match r with
  | Some n => Py.Ok n
  | None => Py.Raise "ValueError: invalid literal for int() with base 10"
  end.

(** Days since 0000-03-01 shifted so that 0001-01-01 is day 1, as
    [date.toordinal]. *)
Definition ordinal (y m d : Z) : Z :=
  let y' := if m <=? 2 then y - 1 else y in
  let m' := if m <=? 2 then m + 9 else m - 3 in
  365 * y' + y' / 4 - y' / 100 + y' / 400 + (153 * m' + 2) / 5 + d - 306.

Definition is_leap (y : Z) : bool :=
  ((y mod 4 =? 0) && negb (y mod 100 =? 0)) || (y mod 400 =? 0).
Definition days_in_month (y m : Z) : Z :=
  if m =? 2 then (if is_leap y then 29 else 28)
  else if (m =? 4) || (m =? 6) || (m =? 9) || (m =? 11) then 30 else 31.

Definition strptime_ymd (text : string) : Py.result Z :=
  let bad := Py.Raise "ValueError: time data does not match format '%Y-%m-%d'" in
  match Py.split text "-" with
  | [ys; ms; ds] =>
      if (String.length ys =? 4)%nat && (String.length ms =? 2)%nat
         && (String.length ds =? 2)%nat
      then match digits ys, digits ms, digits ds with
           | Some y, Some m, Some d =>
               if (1 <=? y) && (1 <=? m) && (m <=? 12) && (1 <=? d)
                  && (d <=? days_in_month y m)
               then Py.Ok (ordinal y m d) else bad
           | _, _, _ => bad
           end
      else bad
  | _ => bad
  end.

(** Regular expressions of literal characters, [.] and [.*]. *)
Inductive token : Type :=
| Lit (c : ascii)
| Dot
| DotStar.

Fixpoint tokens (pattern : string) : list token :=
  match pattern with
  | "" => []
  | String "." (String "*" p') => DotStar :: tokens p'
  | String "." p' => Dot :: tokens p'
  | String c p' => Lit c :: tokens p'
  end.

Definition dot_accepts (c : ascii) : bool := negb (Ascii.eqb c (Py.chr 10)).

(** Does a prefix of [s] match? *)
Fixpoint match_tokens (ts : list token) (s : string) : bool :=
  match ts with
  | [] => true
  | Lit c :: ts' =>
      match s with
      | String d s' => Ascii.eqb c d && match_tokens ts' s'
      | "" => false
      end
  | Dot :: ts' =>
      match s with
      | String d s' => dot_accepts d && match_tokens ts' s'
      | "" => false
      end
  | DotStar :: ts' =>
      (fix star (s : string) : bool :=
         match_tokens ts' s ||
         match s with
         | String d s' => dot_accepts d && star s'
         | "" => false
         end) s
  end.

Definition match_ (pattern text : string) : bool := match_tokens (tokens pattern) text.

Fixpoint search_tokens (ts : list token) (s : string) : bool :=
  match_tokens ts s ||
  match s with
  | "" => false
  | String _ s' => search_tokens ts s'
  end.
Definition search (pattern text : string) : bool := search_tokens (tokens pattern) text.

(** The number of occurrences of a literal, scanning from the left
    and stepping over each occurrence found. *)
Fixpoint findall_go (literal : string) (skip : nat) (s : string) : nat :=
  match s with
  | "" => 0
  | String _ s' =>
      match skip with
      | S k => findall_go literal k s'
      | O =>
          if String.prefix literal s
          then S (findall_go literal (String.length literal - 1) s')
          else findall_go literal 0 s'
      end
  end%nat.
Definition findall (pattern text : string) : nat :=
  match pattern with "" => 0%nat | _ => findall_go pattern 0 text end.

(** JSON. White space is space, tab, newline and carriage return. *)
Definition json_space (c : ascii) : bool :=
  let n := Ascii.nat_of_ascii c in
  (n =? 32)%nat || (n =? 9)%nat || (n =? 10)%nat || (n =? 13)%nat.
Fixpoint skip_ws (s : string) : string :=
  match s with
  | String c s' => if json_space c then skip_ws s' else s
  | "" => ""
  end.

(** The characters of a string up to its closing quote; escapes and
    control characters are not accepted. *)
Fixpoint string_body (acc s : string) : option (string * string) :=
  match s with
  | "" => None
  | String c s' =>
      if Ascii.eqb c (Py.chr 34) then Some (String.rev acc, s')
      else if Ascii.eqb c (Py.chr 92) || (Ascii.nat_of_ascii c <? 32)%nat then None
      else string_body (String c acc) s'
  end.

(** The digits at the head of [s]: how many, their value, the rest. *)
Fixpoint number_body (count : nat) (acc : Z) (s : string) : nat * Z * string :=
  match s with
  | String c s' =>
      match digit_of c with
      | Some d => number_body (S count) (10 * acc + d) s'
      | None => (count, acc, s)
      end
  | "" => (count, acc, s)
  end.

(** A key read twice keeps its first place and takes the last value. *)
Fixpoint set_member (k : string) (v : json) (members : list (string * json))
  : list (string * json) :=
  match members with
  | [] => [(k, v)]
  | (k', v') :: rest =>
      if String.eqb k k' then (k, v) :: rest else (k', v') :: set_member k v rest
  end.

(** The elements after [[], up to and including []]. *)
Fixpoint elements (value : string → option (json * string)) (fuel : nat)
    (acc : list json) (s : string) : option (json * string) :=
  match fuel with
  | O => None
  | S fuel' =>
      match value s with
      | None => None
      | Some (v, rest) =>
          match skip_ws rest with
          | String "," rest' => elements value fuel' (acc ++ [v]) rest'
          | String "]" rest' => Some (JArr (acc ++ [v]), rest')
          | _ => None
          end
      end
  end.

(** The members after [{], up to and including [}]. *)
Fixpoint members (value : string → option (json * string)) (fuel : nat)
    (acc : list (string * json)) (s : string) : option (json * string) :=
  match fuel with
  | O => None
  | S fuel' =>
      match skip_ws s with
      | String q s1 =>
          if Ascii.eqb q (Py.chr 34) then
            match string_body "" s1 with
            | None => None
            | Some (k, s2) =>
                match skip_ws s2 with
                | String ":" s3 =>
                    match value s3 with
                    | None => None
                    | Some (v, rest) =>
                        match skip_ws rest with
                        | String "," rest' => members value fuel' (set_member k v acc) rest'
                        | String "}" rest' => Some (JObj (set_member k v acc), rest')
                        | _ => None
                        end
                    end
                | _ => None
                end
            end
          else None
      | "" => None
      end
  end.

Fixpoint value (fuel : nat) (s : string) : option (json * string) :=
  match fuel with
  | O => None
  | S fuel' =>
      match skip_ws s with
      | "" => None
      | String c rest =>
          if Ascii.eqb c "{" then
            match skip_ws rest with
            | String "}" rest' => Some (JObj [], rest')
            | _ => members (value fuel') fuel' [] rest
            end
          else if Ascii.eqb c "[" then
            match skip_ws rest with
            | String "]" rest' => Some (JArr [], rest')
            | _ => elements (value fuel') fuel' [] rest
            end
          else if Ascii.eqb c (Py.chr 34) then
            match string_body "" rest with
            | Some (str, rest') => Some (JStr str, rest')
            | None => None
            end
          else if Py.startswith (String c rest) "null" then Some (JNull, Py.slice rest 3 (Py.len rest))
          else if Py.startswith (String c rest) "true" then Some (JBool true, Py.slice rest 3 (Py.len rest))
          else if Py.startswith (String c rest) "false" then Some (JBool false, Py.slice rest 4 (Py.len rest))
          else
            let '(negative, body) :=
              if Ascii.eqb c "-" then (true, rest) else (false, String c rest) in
            match number_body 0 0 body with
            | (O, _, _) => None
            | (count, n, rest') =>
                if (1 <? count)%nat && Py.startswith body "0" then None
                else if Py.startswith rest' "." || Py.startswith rest' "e"
                        || Py.startswith rest' "E" then None
                else Some (JNum (if negative then - n else n), rest')
            end
      end
  end.

Definition loads (text : string) : Py.result json :=
  match value (S (String.length text)) text with
  | Some (v, rest) =>
      match skip_ws rest with
      | "" => Py.Ok v
      | _ => Py.Raise "JSONDecodeError: Extra data"
      end
  | None => Py.Raise "JSONDecodeError: Expecting value"
  end.

Definition lib : pylib :=
  {| re_findall := findall;
     re_match := match_;
     re_search := search;
     json_loads := loads;
     py_int := int;
     strptime := strptime_ymd |}.

End Sample.

(* ================================================================== *)
(** * Notions the statements use *)
(* ================================================================== *)

(** The four catalogs by name, and the dictionary of the result that
    belongs to each. *)
Inductive catalog_id : Type := Sustainable | Unsustainable | Environmental | Social.

Definition catalog_of (c : catalog_id) : list (string * list string) :=
  match c with
  | Sustainable => SUSTAINABLE_PATTERNS
  | Unsustainable => UNSUSTAINABLE_PATTERNS
  | Environmental => ENVIRONMENTAL_INDICATORS
  | Social => SOCIAL_INDICATORS
  end.

Definition counts_of (c : catalog_id) (r : code_analysis) : gmap string nat :=
  match c with
  | Sustainable => sustainable r
  | Unsustainable => unsustainable r
  | Environmental => environmental r
  | Social => social r
  end.

(** The number of matches a text has for one sub-category of a catalog:
    the matches of all its patterns, added up. *)
Definition category_hits (L : pylib) (catalog : list (string * list string))
    (content category : string) : nat :=
  sum_list
    (flat_map
       (λ '(k, patterns),
          if decide (k = category) then map (λ p, re_findall L p content) patterns else [])
       catalog).

Global Instance catalog_id_eq_dec : EqDecision catalog_id.
Proof. solve_decision. Defined.

Definition all_catalogs : list catalog_id :=
  [Sustainable; Unsustainable; Environmental; Social].

(** Every sub-category, with the catalog it belongs to, and every pattern. *)
Definition all_subcategories : list (catalog_id * string) :=
  flat_map (λ c, map (λ e, (c, fst e)) (catalog_of c)) all_catalogs.
Definition all_patterns : list string :=
  flat_map (λ c, flat_map snd (catalog_of c)) all_catalogs.

(** A text that matches no pattern of any catalog. *)
Definition matches_nothing (L : pylib) (content : string) : Prop :=
  Forall (λ pattern, re_findall L pattern content = 0%nat) all_patterns.

(** A text with exactly one match for the sub-category [X] of the catalog
    [c] and no match for any other sub-category. *)
Definition matches_only (L : pylib) (content : string) (c : catalog_id) (X : string) : Prop :=
  (c, X) ∈ all_subcategories
  ∧ category_hits L (catalog_of c) content X = 1%nat
  ∧ Forall (λ cy, cy = (c, X) ∨ category_hits L (catalog_of cy.1) content cy.2 = 0%nat)
           all_subcategories.

(** A file is processed when the body of the [try] runs to its end, and
    skipped when an exception cuts it short. *)
Definition is_processed (fs : filestore) (p : path) : bool :=
  match open_read fs p, getsize fs p with
  | Some _, Some _ => true
  | _, _ => false
  end.
Definition files_processed (fs : filestore) (files : list path) : nat :=
  length (filter (λ p, is_processed fs p = true) files).
Definition files_skipped (fs : filestore) (files : list path) : nat :=
  length (filter (λ p, is_processed fs p = false) files).

(** The sum of the entries of a [Counter]. *)
Definition counter_total (m : gmap string nat) : nat :=
  map_fold (λ _ n acc, n + acc)%nat 0%nat m.

(** The directories a relative path leads to. Entries of one directory
    have distinct names on a real file system, so the list has at most one
    element there. *)
Fixpoint dirs_at (t : tree) (ds : list string) : list tree :=
  match ds with
  | [] => [t]
  | d :: ds' =>
      match t with
      | Node dirs _ => flat_map (λ e, if decide (e.1 = d) then dirs_at e.2 ds' else []) dirs
      end
  end.

(** The working copy has a file named [file] in the directory [ds]. *)
Definition file_at (t : tree) (ds : list string) (file : string) : Prop :=
  Exists (λ sub, file ∈ tree_files sub) (dirs_at t ds).

(** The files [check_test_coverage] looks at, each with its directory: the
    files of every directory of the walk that carry one of its extensions. *)
Definition coverage_candidates (walk : list (path * list string * list string))
  : list (path * string) :=
  flat_map
    (λ '(root, _, files),
       map (λ f, (root, f))
           (filter (λ f, has_extension coverage_extensions f = true) files))
    walk.

(** The test made on each of them. *)
Definition is_test_file (L : pylib) (rf : path * string) : bool :=
  in_test_dir rf.1 || matches_test_pattern L rf.2.

(** The lines a test file adds to [test_lines]: none when it cannot be read. *)
Definition lines_of (fs : filestore) (p : path) : nat :=
  match open_read fs p with
  | Some content => length (Py.split content Py.nl)
  | None => 0
  end.

(** The files of a list that can be read, each with its text. *)
Definition readable_samples (fs : filestore) (l : list path) : list (path * string) :=
  omap (λ f, pair f <$> open_read fs f) l.

(** The characters of the texts of a list of samples, which is what
    [total_chars] adds up. *)
Definition content_chars (included : list (path * string)) : Z :=
  foldr (λ fc acc, Py.len fc.2 + acc) 0 included.

(** The characters a payload holds beside the texts: the prefix
    [File: <path>] with its newline and the closing newline of each sample,
    and the newlines that join the samples. *)
Definition payload_overhead (included : list (path * string)) : Z :=
  foldr (λ fc acc, Py.len "File: " + Py.len (path_str fc.1) + 2 + acc) 0 included
  + Z.max 0 (Z.of_nat (length included) - 1).

(** A text of [n] characters. *)
Definition long_text (n : N) : string := N.iter n (String "a") "".

(** The lines of a requirements file that are not blank and do not begin
    with [#]. *)
Definition requirement_lines (text : string) : list string :=
  filter (λ line, Py.strip line ≠ "" ∧ Py.startswith line "#" = false)
         (Py.readlines text).

(** Whether a JSON value is a dictionary. *)
Definition is_dict (v : json) : bool :=
  match v with
  | JObj _ => true
  | _ => false
  end.

(** A file store given by the texts of its files; a path without an entry
    cannot be opened, and the size of a file is the length of its text. *)
Fixpoint text_at (entries : list (path * string)) (p : path) : option string :=
  match entries with
  | [] => None
  | (q, text) :: rest => if decide (q = p) then Some text else text_at rest p
  end.
Definition store_of (entries : list (path * string)) : filestore :=
  {| open_read := text_at entries;
     getsize := λ p, String.length <$> text_at entries p |}.

(** A working copy with code in [src], a vendored file, an installed
    package and a test directory. *)
Definition sample_tree : tree :=
  Node [("src", Node [("vendor", Node [] ["dep.py"])] ["app.py"; "notes.txt"]);
        ("node_modules", Node [("pkg", Node [] ["index.js"])] []);
        ("tests", Node [] ["test_app.py"; "test_cli.py"])]
       ["README.md"; "setup.py"].

Definition sample_store : filestore :=
  store_of [(["repo"; "setup.py"], "import setuptools");
            (["repo"; "src"; "app.py"], "x = 1" +:+ Py.nl +:+ "y = 2");
            (["repo"; "src"; "vendor"; "dep.py"], "z = 3");
            (["repo"; "node_modules"; "pkg"; "index.js"], "var a;");
            (["repo"; "tests"; "test_app.py"], "import pytest" +:+ Py.nl +:+ "pass");
            (["repo"; "tests"; "test_cli.py"], "pass")].

(** A working copy with two test files and one other code file. *)
Definition mostly_tests_tree : tree :=
  Node [("tests", Node [] ["test_a.py"; "test_b.py"])] ["main.py"].

(** A manifest with two dependencies and one development dependency, and
    a requirements file with one line. *)
Definition quoted (s : string) : string := Py.dq +:+ s +:+ Py.dq.
Definition package_json_text : string :=
  "{" +:+ quoted "dependencies" +:+ ": {" +:+ quoted "express" +:+ ": " +:+ quoted "4"
  +:+ ", " +:+ quoted "lodash" +:+ ": " +:+ quoted "4" +:+ "}, "
  +:+ quoted "devDependencies" +:+ ": {" +:+ quoted "jest" +:+ ": " +:+ quoted "29" +:+ "}}".
Definition requirements_text : string := "flask" +:+ Py.nl.

Definition manifest_texts : path → option string :=
  text_at [(["repo"; "package.json"], package_json_text);
           (["repo"; "requirements.txt"], requirements_text)].

Definition package_only_tree : tree := Node [] ["package.json"].
Definition both_manifests_tree : tree := Node [] ["package.json"; "requirements.txt"].

(** The history of a repository with a single commit. *)
Definition one_commit_history : git_history :=
  {| git_rev_list_count := Py.Ok ("1" +:+ Py.nl);
     git_log_dates := Py.Ok ("2024-03-09" +:+ Py.nl);
     git_log_emails := Py.Ok ("dev@example.org" +:+ Py.nl);
     git_log_subjects :=
       Py.Ok ("Initial commit" +:+ Py.nl +:+ Py.nl +:+ "main.py" +:+ Py.nl) |}.

(** A run: one repository that clones into the sample working copy, and
    a model service with a given behaviour. *)
Definition sample_complexity : complexity_data :=
  {| cx_average := 0; cx_max := 0; cx_complex_functions := 0;
     cx_maintainability_index := 0; cx_halstead_volume := 0;
     cx_halstead_difficulty := 0; cx_halstead_effort := 0 |}.

Definition sample_info : repo_info :=
  {| country := "NL"; org := "acme"; repo_link := "https://example.org/acme/tool.git" |}.

Definition sample_world (service : string → Py.result (option string)) : world :=
  {| clone := λ url,
       if decide (url = repo_link sample_info)
       then Some {| wc_tree := sample_tree; wc_files := sample_store;
                    wc_open_strict := manifest_texts; wc_git := one_commit_history;
                    wc_complexity := sample_complexity |}
       else None;
     generate := service;
     temp_dir := λ _, [] |}.

Definition empty_state : main_state :=
  {| ms_results := []; ms_country_repo_count := ∅; ms_written := [] |}.

(** A working copy whose top directory holds one artifact for each flag
    that is asked for. *)
Definition tree_with_flags (readme license gitignore ci manifest docker contributing
                            conduct security : bool) : tree :=
  let opt (b : bool) (name : string) : list string := if b then [name] else [] in
  Node []
       (opt readme "README.md" ++ opt license "LICENSE" ++ opt gitignore ".gitignore"
        ++ opt ci ".travis.yml" ++ opt manifest "package.json" ++ opt docker "Dockerfile"
        ++ opt contributing "CONTRIBUTING.md" ++ opt conduct "CODE_OF_CONDUCT.md"
        ++ opt security "SECURITY.md").

(* ================================================================== *)
(** * Properties *)
(* ================================================================== *)

(** ** The built-ins and the analyzers on small inputs *)

Example split_newline :
  Py.split ("a" +:+ Py.nl +:+ "b" +:+ Py.nl) Py.nl = ["a"; "b"; ""].
Proof. reflexivity. Qed.

Example split_blank_line :
  Py.split ("s1" +:+ Py.nl +:+ Py.nl +:+ "f1" +:+ Py.nl +:+ "s2") (Py.nl +:+ Py.nl)
  = ["s1"; "f1" +:+ Py.nl +:+ "s2"].
Proof. reflexivity. Qed.

Example split_empty : Py.split "" Py.nl = [""].
Proof. reflexivity. Qed.

Example strip_both_ends : Py.strip ("  a b " +:+ Py.nl) = "a b".
Proof. reflexivity. Qed.

Example endswith_extension :
  Py.endswith "main.py" ".py" = true ∧ Py.endswith "main.pyc" ".py" = false.
Proof. split; reflexivity. Qed.

Example replace_git_suffix : Py.replace "repo.git" ".git" "" = "repo".
Proof. reflexivity. Qed.

Example readlines_keeps_newlines :
  Py.readlines ("a" +:+ Py.nl +:+ "b") = ["a" +:+ Py.nl; "b"].
Proof. reflexivity. Qed.

Example find_braces :
  Py.find "ab{c}" "{" = 2 ∧ Py.rfind "ab{c}}" "}" = 5 ∧ Py.find "abc" "{" = -1.
Proof. repeat split; reflexivity. Qed.

Example slice_braces : Py.slice "ab{c}d" 2 5 = "{c}".
Proof. reflexivity. Qed.

Example splitext_cases :
  splitext_ext ["repo"; "src"; "app.py"] = ".py"
  ∧ splitext_ext ["repo"; "archive.tar.gz"] = ".gz"
  ∧ splitext_ext ["repo"; ".gitignore"] = ""
  ∧ splitext_ext ["repo"; "Makefile"] = "".
Proof. repeat split; reflexivity. Qed.

Example sample_ordinal : Sample.strptime_ymd "2024-01-01" = Py.Ok 738886.
Proof. reflexivity. Qed.

Example sample_test_patterns :
  matches_test_pattern Sample.lib "app_test.py" = true
  ∧ matches_test_pattern Sample.lib "test_app.py" = true
  ∧ matches_test_pattern Sample.lib "AppTest.java" = true
  ∧ matches_test_pattern Sample.lib "app.py" = false.
Proof. repeat split; reflexivity. Qed.

(** A working copy that holds [README.md], [LICENSE] and [.gitignore]
    only: three flags of nine. *)
Example structure_three_of_nine :
  let s := analyze_repo_structure ["repo"] (Node [] ["README.md"; "LICENSE"; ".gitignore"]) in
  structure_flags s = [true; true; true; false; false; false; false; false; false]
  ∧ (architecture_score s == 3 # 9)%Q.
Proof. split; by vm_compute. Qed.

(** Ten Python files beside two files under [tests]. *)
Example coverage_two_of_ten :
  let t := Node [("tests", Node [] ["a.py"; "b.py"])]
                ["m0.py"; "m1.py"; "m2.py"; "m3.py"; "m4.py"; "m5.py"; "m6.py"; "m7.py";
                 "m8.py"; "m9.py"] in
  let tc := check_test_coverage Sample.lib (store_of []) ["repo"] t in
  has_tests tc = true ∧ test_files tc = 2%nat ∧ (test_to_code_ratio tc == 2 # 10)%Q.
Proof. repeat split; by vm_compute. Qed.

(** A working copy with nothing but [.git] is skipped by the main loop. *)
Example only_git_directory_is_skipped :
  let w := {| clone := λ _, Some {| wc_tree := Node [(".git", Node [] ["config.py"])] [];
                                    wc_files := store_of [];
                                    wc_open_strict := λ _, None;
                                    wc_git := one_commit_history;
                                    wc_complexity := sample_complexity |};
              generate := λ _, Py.Ok (Some "{}");
              temp_dir := λ _, [] |} in
  main_step Sample.lib w empty_state 0 sample_info = Py.Ok empty_state.
Proof. reflexivity. Qed.

(** The sample working copy through the pattern analyzer. *)
Example sample_code_analysis :
  let r := analyze_code_patterns Sample.lib sample_store (get_code_files ["repo"] sample_tree) in
  file_count r = 4%nat ∧ total_lines r = 6%nat
  ∧ file_types r !! ".py" = Some 4%nat.
Proof. repeat split; by vm_compute. Qed.

(** ** Structure analyzer *)

(** The running [score] after the nine conditionals is the number of
    flags that are set. *)
Lemma score_counts_flags (b1 b2 b3 b4 b5 b6 b7 b8 b9 : bool) :
  bump b9 (bump b8 (bump b7 (bump b6 (bump b5 (bump b4 (bump b3 (bump b2 (bump b1 0))))))))
  = Z.of_nat (count_true [b1; b2; b3; b4; b5; b6; b7; b8; b9]).
Proof.
  destruct b1, b2, b3, b4, b5, b6, b7, b8, b9; vm_compute; reflexivity.
Qed.

(** C1. For every working copy, [architecture_score] is the number of the
    nine presence flags that are set, divided by 9. Every combination of
    the nine flags is produced by some working copy, so the equation covers
    all 512 of them; with no flag set the score is 0 and with all nine set
    it is 1. *)
Theorem architecture_score_is_flag_ratio :
  (∀ (repo_dir : path) (t : tree),
     let s := analyze_repo_structure repo_dir t in
     architecture_score s == inject_Z (Z.of_nat (count_true (structure_flags s))) / 9)
  ∧ (∀ b1 b2 b3 b4 b5 b6 b7 b8 b9 : bool,
       let s := analyze_repo_structure ["repo"] (tree_with_flags b1 b2 b3 b4 b5 b6 b7 b8 b9) in
       structure_flags s = [b1; b2; b3; b4; b5; b6; b7; b8; b9])
  ∧ architecture_score
      (analyze_repo_structure ["repo"]
         (tree_with_flags false false false false false false false false false)) == 0
  ∧ architecture_score
      (analyze_repo_structure ["repo"]
         (tree_with_flags true true true true true true true true true)) == 1.
Proof.
  split; [|split; [|split]].
  - intros repo_dir t s. subst s. unfold analyze_repo_structure, structure_flags. cbn zeta.
    cbn [architecture_score has_readme has_license has_gitignore has_ci_config
         has_dependency_manager has_docker has_contribution_guide has_code_of_conduct
         has_security_policy].
    rewrite score_counts_flags. reflexivity.
  - intros [] [] [] [] [] [] [] [] []; vm_compute; reflexivity.
  - vm_compute. reflexivity.
  - vm_compute. reflexivity.
Qed.

(** ** Pattern analyzer *)

Section PatternProperties.
Context (L : pylib) (fs : filestore).

Lemma count_patterns_lookup (content category : string) (patterns : list string)
    (counts : gmap string nat) (X : string) :
  foldl (λ counts pattern, alter (λ n, n + re_findall L pattern content)%nat category counts)
        counts patterns !! X
  = (λ n, n + (if decide (category = X)
               then sum_list (map (λ p, re_findall L p content) patterns) else 0))%nat
    <$> counts !! X.
Proof.
  revert counts. induction patterns as [|p ps IH]; intros counts; cbn [foldl].
  - destruct (counts !! X) as [n|]; cbn; [|done]. f_equal. case_decide; cbn; lia.
  - rewrite IH. rewrite lookup_alter. cbn [map sum_list_with id].
    case_decide as Hk; [subst|].
    + destruct (counts !! X) as [n|]; cbn; [|done]. f_equal. lia.
    + destruct (counts !! X) as [n|]; cbn; done.
Qed.

(** One pass of a catalog over a text adds, to every sub-category, the
    matches the text has for it. *)
Lemma count_catalog_lookup (catalog : list (string * list string)) (content : string)
    (counts : gmap string nat) (X : string) :
  count_catalog L catalog content counts !! X
  = (λ n, n + category_hits L catalog content X)%nat <$> counts !! X.
Proof.
  unfold count_catalog, category_hits. revert counts.
  induction catalog as [|[k ps] cat IH]; intros counts; cbn [foldl flat_map].
  - destruct (counts !! X) as [n|]; cbn; [|done]. f_equal. lia.
  - rewrite IH, count_patterns_lookup. rewrite sum_list_with_app.
    destruct (counts !! X) as [n|]; cbn; [|done]. f_equal.
    case_decide; cbn; lia.
Qed.

(** What one file does to the dictionary of a catalog. *)
Lemma process_file_counts (st : pattern_state) (p : path) (c : catalog_id) :
  counts_of c (results (process_file L fs st p))
  = match open_read fs p, getsize fs p with
    | Some content, Some _ => count_catalog L (catalog_of c) content (counts_of c (results st))
    | _, _ => counts_of c (results st)
    end.
Proof.
  unfold process_file.
  destruct (open_read fs p) as [content|]; [|done].
  destruct (getsize fs p) as [sz|]; destruct c; reflexivity.
Qed.

(** The dictionaries after a run of the loop depend on the dictionaries
    before it and on nothing else of the state. *)
Lemma pattern_loop_counts_ext (l : list path) (st1 st2 : pattern_state) :
  (∀ c, counts_of c (results st1) = counts_of c (results st2)) →
  ∀ c, counts_of c (results (foldl (process_file L fs) st1 l))
       = counts_of c (results (foldl (process_file L fs) st2 l)).
Proof.
  revert st1 st2. induction l as [|p l IH]; intros st1 st2 Heq c; cbn [foldl]; [apply Heq|].
  apply IH. intros c'. rewrite !process_file_counts, Heq. reflexivity.
Qed.

Lemma analyze_counts (files : list path) (c : catalog_id) :
  counts_of c (analyze_code_patterns L fs files)
  = counts_of c (results (pattern_loop L fs files)).
Proof. destruct c; reflexivity. Qed.

(** Appending one file to the list: the dictionaries are those of the
    shorter list after one more turn of the loop. *)
Lemma analyze_counts_snoc (files : list path) (p : path) (c : catalog_id) :
  counts_of c (analyze_code_patterns L fs (files ++ [p]))
  = match open_read fs p, getsize fs p with
    | Some content, Some _ =>
        count_catalog L (catalog_of c) content (counts_of c (analyze_code_patterns L fs files))
    | _, _ => counts_of c (analyze_code_patterns L fs files)
    end.
Proof.
  rewrite !analyze_counts. unfold pattern_loop. rewrite foldl_snoc, process_file_counts.
  assert (∀ c, counts_of c (results (foldl (process_file L fs)
              {| results := initial_results (files ++ [p]); total_size := 0;
                 total_comment_lines := 0 |} files))
             = counts_of c (results (foldl (process_file L fs)
              {| results := initial_results files; total_size := 0;
                 total_comment_lines := 0 |} files))) as Heq.
  { apply pattern_loop_counts_ext. intros []; reflexivity. }
  rewrite Heq. reflexivity.
Qed.

Lemma zero_counts_lookup (catalog : list (string * list string)) (X : string) :
  X ∈ catalog.*1 → zero_counts catalog !! X = Some 0%nat.
Proof.
  unfold zero_counts. induction catalog as [|[k ps] cat IH]; intros Hin.
  - by apply elem_of_nil in Hin.
  - cbn [map]. rewrite list_to_map_cons, lookup_insert. case_decide; [done|].
    apply IH. cbn in Hin. apply elem_of_cons in Hin as [->|]; done.
Qed.

(** Every sub-category of a catalog has an entry in the result. *)
Lemma analyze_counts_is_Some (files : list path) (c : catalog_id) (X : string) :
  X ∈ (catalog_of c).*1 → is_Some (counts_of c (analyze_code_patterns L fs files) !! X).
Proof.
  intros Hin. induction files as [|p files IH] using rev_ind.
  - exists 0%nat. destruct c; by apply zero_counts_lookup.
  - rewrite analyze_counts_snoc.
    destruct (open_read fs p) as [content|]; [|done].
    destruct (getsize fs p) as [sz|]; [|done].
    rewrite count_catalog_lookup. destruct IH as [m ->]. by eexists.
Qed.

Lemma category_hits_absent (catalog : list (string * list string)) (content X : string) :
  X ∉ catalog.*1 → category_hits L catalog content X = 0%nat.
Proof.
  unfold category_hits. induction catalog as [|[k ps] cat IH]; intros Hnin; [done|].
  cbn [flat_map]. rewrite sum_list_with_app.
  cbn in Hnin. apply not_elem_of_cons in Hnin as [Hne Hnin].
  rewrite IH by done. case_decide; [congruence|]. reflexivity.
Qed.

Lemma category_hits_nothing (c : catalog_id) (content X : string) :
  matches_nothing L content → category_hits L (catalog_of c) content X = 0%nat.
Proof.
  unfold matches_nothing. rewrite Forall_forall. intros Hnone.
  assert (∀ k ps pattern, (k, ps) ∈ catalog_of c → pattern ∈ ps →
                          re_findall L pattern content = 0%nat) as Hc.
  { intros k ps pattern Hk Hp. apply Hnone. unfold all_patterns.
    apply list_elem_of_In, in_flat_map. exists c. split.
    - destruct c; cbn; tauto.
    - apply in_flat_map. exists (k, ps). split; by apply list_elem_of_In. }
  clear Hnone. unfold category_hits.
  induction (catalog_of c) as [|[k ps] cat IH]; [done|].
  cbn [flat_map]. rewrite sum_list_with_app, IH.
  - case_decide; [|done]. rewrite Nat.add_0_r.
    assert (∀ pattern, pattern ∈ ps → re_findall L pattern content = 0%nat) as Hps.
    { intros pattern Hp. eapply Hc; [left|done]. }
    clear -Hps. induction ps as [|q ps IHps]; [done|].
    cbn. rewrite Hps by left. apply IHps. intros ? ?. apply Hps. by right.
  - intros k' ps' pattern Hk Hp. eapply Hc; [right|]; done.
Qed.

(** C7. Appending a readable file to the list of the pattern analyzer:
    when its text matches no pattern of any catalog, every sub-category
    count of the four catalogs is as before; when its text has exactly one
    match for the sub-category [X] and none for any other, the count of [X]
    is one more than before and every other count is as before. *)
Theorem pattern_counts_monotonic (files : list path) (p : path) (content : string) (sz : nat) :
  open_read fs p = Some content →
  getsize fs p = Some sz →
  let before := analyze_code_patterns L fs files in
  let after := analyze_code_patterns L fs (files ++ [p]) in
  (matches_nothing L content → ∀ c, counts_of c after = counts_of c before)
  ∧ (∀ c X, matches_only L content c X →
       (∃ n, counts_of c before !! X = Some n
             ∧ counts_of c after !! X = Some (n + 1)%nat)
       ∧ (∀ c' Y, (c', Y) ≠ (c, X) →
            counts_of c' after !! Y = counts_of c' before !! Y)).
Proof.
  intros Hopen Hsize before after.
  assert (∀ c Y, counts_of c after !! Y
                 = (λ n, n + category_hits L (catalog_of c) content Y)%nat
                   <$> counts_of c before !! Y) as Hstep.
  { intros c Y. subst before after.
    rewrite analyze_counts_snoc, Hopen, Hsize. apply count_catalog_lookup. }
  split.
  - intros Hnone c. apply map_eq. intros Y.
    rewrite Hstep, category_hits_nothing by done.
    destruct (counts_of c before !! Y) as [n|]; cbn; [|done]. f_equal. lia.
  - intros c X (Hin & Hone & Hothers). split.
    + assert (X ∈ (catalog_of c).*1) as HX.
      { unfold all_subcategories in Hin.
        apply list_elem_of_In, in_flat_map in Hin as (c0 & _ & Hin).
        apply in_map_iff in Hin as (e & [= -> <-] & He).
        apply list_elem_of_fmap. exists e. split; [done|]. by apply list_elem_of_In. }
      destruct (analyze_counts_is_Some files c X HX) as [n Hn].
      exists n. split; [done|]. rewrite Hstep. fold before in Hn. rewrite Hn, Hone. done.
    + intros c' Y Hne. rewrite Hstep.
      destruct (counts_of c' before !! Y) as [n|] eqn:Hn; cbn; [|done].
      f_equal.
      destruct (decide (Y ∈ (catalog_of c').*1)) as [HY|HY].
      * rewrite Forall_forall in Hothers.
        destruct (Hothers (c', Y)) as [|Hz]; [|congruence|cbn in Hz; lia].
        unfold all_subcategories. apply list_elem_of_In, in_flat_map.
        exists c'. split; [destruct c'; cbn; tauto|].
        apply list_elem_of_fmap in HY as (e & -> & He).
        apply in_map_iff. exists e. split; [done|]. by apply list_elem_of_In.
      * rewrite category_hits_absent by done. lia.
Qed.

(** The loop never writes [file_count]. *)
Lemma pattern_loop_file_count (l : list path) (st : pattern_state) :
  file_count (results (foldl (process_file L fs) st l)) = file_count (results st).
Proof.
  revert st. induction l as [|p l IH]; intros st; cbn [foldl]; [done|].
  rewrite IH. unfold process_file.
  destruct (open_read fs p); [|done]. destruct (getsize fs p); reflexivity.
Qed.

Lemma counter_total_bump (m : gmap string nat) (k : string) :
  counter_total (<[k := (m !!! k + 1)%nat]> m) = (counter_total m + 1)%nat.
Proof.
  unfold counter_total. rewrite lookup_total_alt.
  destruct (m !! k) as [v|] eqn:Hk; cbn.
  - rewrite <-insert_delete_eq.
    rewrite map_fold_insert_L; [|intros; lia|apply lookup_delete_eq].
    rewrite (map_fold_delete_L _ _ k v m); [lia|intros; lia|done].
  - rewrite map_fold_insert_L; [lia|intros; lia|done].
Qed.

(** The entries of [file_types] add up to the number of files that went
    through the whole loop body. *)
Lemma pattern_loop_file_types (l : list path) (st : pattern_state) :
  counter_total (file_types (results (foldl (process_file L fs) st l)))
  = (counter_total (file_types (results st)) + files_processed fs l)%nat.
Proof.
  revert st. induction l as [|p l IH]; intros st; cbn [foldl].
  - unfold files_processed. cbn. lia.
  - rewrite IH. unfold files_processed. rewrite filter_cons.
    unfold process_file, is_processed.
    destruct (open_read fs p); [destruct (getsize fs p)|]; cbn [results file_types].
    + rewrite counter_total_bump. case_decide; [cbn; lia|done].
    + case_decide; [done|lia].
    + case_decide; [done|lia].
Qed.

Lemma processed_or_skipped (l : list path) :
  length l = (files_processed fs l + files_skipped fs l)%nat.
Proof.
  unfold files_processed, files_skipped. induction l as [|p l IH]; [done|].
  rewrite !filter_cons. destruct (is_processed fs p); repeat case_decide; try done; cbn; lia.
Qed.

(** The loop never writes [comment_ratio]. *)
Lemma pattern_loop_total_comment_ratio (l : list path) (st : pattern_state) :
  comment_ratio (results (foldl (process_file L fs) st l)) = comment_ratio (results st).
Proof.
  revert st. induction l as [|p l IH]; intros st; cbn [foldl]; [done|].
  rewrite IH. unfold process_file.
  destruct (open_read fs p); [|done]. destruct (getsize fs p); reflexivity.
Qed.

(** The loop keeps the comment lines below the lines. *)
Lemma pattern_loop_comment_lines (l : list path) (st : pattern_state) :
  (total_comment_lines st ≤ total_lines (results st))%nat →
  (total_comment_lines (foldl (process_file L fs) st l)
   ≤ total_lines (results (foldl (process_file L fs) st l)))%nat.
Proof.
  revert st. induction l as [|p l IH]; intros st Hle; cbn [foldl]; [done|].
  apply IH. unfold process_file.
  destruct (open_read fs p) as [content|]; [|done].
  destruct (getsize fs p); cbn [results total_lines total_comment_lines]; [|lia].
  pose proof (length_filter
    (λ line, Py.any (λ pattern, re_match L pattern line) comment_patterns = true)
    (Py.split content Py.nl)). lia.
Qed.

(** C6, as the code has it. [file_count] is the length of the list the
    analyzer was given: the processed files and the skipped ones together.
    A file whose read fails is skipped and the loop goes on with the rest,
    so the files that were processed are the ones [file_types] counts, and
    [file_count] is their number exactly when no file was skipped. *)
Theorem file_count_is_list_length (files : list path) :
  let r := analyze_code_patterns L fs files in
  file_count r = length files
  ∧ file_count r = (files_processed fs files + files_skipped fs files)%nat
  ∧ counter_total (file_types r) = files_processed fs files.
Proof.
  cbn zeta.
  assert (file_count (analyze_code_patterns L fs files) = length files) as Hcount.
  { unfold analyze_code_patterns. cbn [file_count]. unfold pattern_loop.
    rewrite pattern_loop_file_count. reflexivity. }
  split; [done|]. split.
  - rewrite Hcount. apply processed_or_skipped.
  - unfold analyze_code_patterns. cbn [file_types]. unfold pattern_loop.
    rewrite pattern_loop_file_types. cbn [results file_types initial_results].
    unfold counter_total at 1. rewrite map_fold_empty. lia.
Qed.

End PatternProperties.

(** Two files without a match and with one match for [scalability]. *)
Lemma pattern_counts_monotonic_witness :
  let fs := store_of [(["repo"; "empty.py"], ""); (["repo"; "store.py"], "cache")] in
  let before := analyze_code_patterns Sample.lib fs [] in
  let middle := analyze_code_patterns Sample.lib fs ([] ++ [["repo"; "empty.py"]]) in
  let after := analyze_code_patterns Sample.lib fs ([] ++ [["repo"; "store.py"]]) in
  (∀ c, counts_of c middle = counts_of c before)
  ∧ (∃ n, counts_of Sustainable before !! "scalability" = Some n
          ∧ counts_of Sustainable after !! "scalability" = Some (n + 1)%nat)
  ∧ counts_of Unsustainable after !! "naming_issues"
    = counts_of Unsustainable before !! "naming_issues".
Proof.
  intros fs before middle after. split.
  - apply (pattern_counts_monotonic Sample.lib fs [] ["repo"; "empty.py"] "" 0
             eq_refl eq_refl).
    apply (bool_decide_unpack _). vm_compute. exact I.
  - destruct (pattern_counts_monotonic Sample.lib fs [] ["repo"; "store.py"] "cache" 5
                eq_refl eq_refl) as [_ Hone].
    destruct (Hone Sustainable "scalability") as [Hup Hrest].
    + split; [|split].
      * apply (bool_decide_unpack _). vm_compute. exact I.
      * vm_compute. reflexivity.
      * apply (bool_decide_unpack _). vm_compute. exact I.
    + split; [exact Hup|]. apply Hrest. discriminate.
Defined.

(** C6 as stated fails: of two listed files one is a dangling link that
    cannot be opened; it is skipped, yet [file_count] counts it. *)
Lemma file_count_counts_skipped_file :
  let fs := store_of [(["repo"; "main.py"], "x = 1")] in
  let files := [["repo"; "main.py"]; ["repo"; "link.py"]] in
  file_count (analyze_code_patterns Sample.lib fs files) = 2%nat
  ∧ files_processed fs files = 1%nat
  ∧ file_count (analyze_code_patterns Sample.lib fs files) ≠ files_processed fs files.
Proof. vm_compute. repeat split; [reflexivity..|discriminate]. Qed.

(** ** Walking the working copy *)

(** Induction over a directory and all the directories below it. *)
Lemma tree_ind_deep (P : tree → Prop) :
  (∀ dirs files, Forall (λ e, P e.2) dirs → P (Node dirs files)) → ∀ t, P t.
Proof.
  intros Hnode. fix IH 1. intros [dirs files]. apply Hnode.
  induction dirs as [|[d sub] dirs IHdirs]; constructor; [apply IH|apply IHdirs].
Qed.

Lemma os_walk_unfold (keep : string → bool) (root : path) dirs files :
  os_walk keep root (Node dirs files)
  = (root, filter (λ d, keep d = true) (map fst dirs), files)
    :: flat_map (λ e, if keep e.1 then os_walk keep (root ++ [e.1]) e.2 else []) dirs.
Proof.
  cbn [os_walk]. f_equal.
  induction dirs as [|[d sub] dirs IH]; [done|]. cbn [flat_map fst snd]. by rewrite IH.
Qed.

(** Whatever the walk yields lies below its starting point, along kept
    names only. *)
Lemma os_walk_sound (keep : string → bool) (t : tree) :
  ∀ (root r : path) (ds' files : list string),
    (r, ds', files) ∈ os_walk keep root t →
    ∃ ds sub, r = root ++ ds ∧ Forall (λ d, keep d = true) ds ∧ sub ∈ dirs_at t ds
              ∧ files = tree_files sub
              ∧ ds' = filter (λ d, keep d = true) (tree_dirs sub).
Proof.
  induction t as [dirs files IH] using tree_ind_deep.
  intros root r ds' fs Hin. rewrite os_walk_unfold in Hin.
  apply elem_of_cons in Hin as [[= -> -> ->]|Hin].
  - exists [], (Node dirs files). rewrite app_nil_r. cbn. repeat split; try done.
    apply list_elem_of_singleton. done.
  - apply list_elem_of_In, in_flat_map in Hin as ([d sub] & He & Hin). cbn [fst snd] in Hin.
    destruct (keep d) eqn:Hkeep; [|by destruct Hin].
    rewrite Forall_forall in IH.
    apply list_elem_of_In in He, Hin.
    destruct (IH (d, sub) He _ _ _ _ Hin) as (ds & sub' & -> & Hkept & Hsub & -> & ->).
    exists (d :: ds), sub'. rewrite <-app_assoc. cbn [app].
    repeat split; try done; [by constructor|].
    cbn [dirs_at]. apply list_elem_of_In, in_flat_map. exists (d, sub).
    split; [by apply list_elem_of_In|]. cbn [fst snd]. rewrite decide_True by done.
    by apply list_elem_of_In.
Qed.

(** Every directory that is reached along kept names is yielded. *)
Lemma os_walk_complete (keep : string → bool) (ds : list string) :
  ∀ (t sub : tree) (root : path),
    sub ∈ dirs_at t ds → Forall (λ d, keep d = true) ds →
    (root ++ ds, filter (λ d, keep d = true) (tree_dirs sub), tree_files sub)
    ∈ os_walk keep root t.
Proof.
  induction ds as [|d ds IH]; intros [dirs files] sub root Hsub Hkeep.
  - cbn in Hsub. apply list_elem_of_singleton in Hsub as ->.
    rewrite os_walk_unfold, app_nil_r. left.
  - rewrite os_walk_unfold. right.
    cbn [dirs_at] in Hsub. apply list_elem_of_In, in_flat_map in Hsub as (e & He & Hsub).
    case_decide as Hd; [subst d|by destruct Hsub].
    apply Forall_cons in Hkeep as [Hk Hkeep].
    apply list_elem_of_In, in_flat_map. exists e. split; [done|]. rewrite Hk.
    apply list_elem_of_In. replace (root ++ e.1 :: ds) with ((root ++ [e.1]) ++ ds)
      by (by rewrite <-app_assoc).
    apply IH; [by apply list_elem_of_In|done].
Qed.

(** ** Suffixes *)

Lemma append_cons (c : ascii) (s t : string) : String c s +:+ t = String c (s +:+ t).
Proof. reflexivity. Qed.

Lemma append_assoc (s t u : string) : (s +:+ t) +:+ u = s +:+ (t +:+ u).
Proof. induction s as [|c s IH]; [done|]. by rewrite !append_cons, IH. Qed.

Lemma append_empty_r (s : string) : s +:+ "" = s.
Proof. induction s as [|c s IH]; [done|]. by rewrite append_cons, IH. Qed.

Lemma append_length (s t : string) :
  String.length (s +:+ t) = (String.length s + String.length t)%nat.
Proof. induction s as [|c s IH]; [done|]. rewrite append_cons. cbn. by rewrite IH. Qed.

Lemma prefix_app (p s : string) :
  String.prefix p s = true → ∃ x, s = p +:+ x.
Proof.
  revert s. induction p as [|c p IH]; intros s Hp.
  - by exists s.
  - destruct s as [|d s]; [done|]. cbn in Hp.
    destruct (Ascii.ascii_dec c d) as [->|]; [|done].
    destruct (IH s Hp) as [x ->]. by exists x.
Qed.

Lemma rev_app_spec (s acc : string) :
  String.rev_app s acc = String.rev s +:+ acc.
Proof.
  unfold String.rev. revert acc. induction s as [|c s IH]; intros acc; [done|].
  cbn [String.rev_app]. rewrite (IH (String c "")), IH, append_assoc. done.
Qed.

Lemma rev_cons (c : ascii) (s : string) :
  String.rev (String c s) = String.rev s +:+ String c "".
Proof. unfold String.rev at 1. cbn [String.rev_app]. apply rev_app_spec. Qed.

Lemma rev_append (s t : string) :
  String.rev (s +:+ t) = String.rev t +:+ String.rev s.
Proof.
  induction s as [|c s IH].
  - change (String.rev "") with "". by rewrite append_empty_r.
  - rewrite append_cons, !rev_cons, IH, append_assoc. done.
Qed.

Lemma rev_involutive (s : string) : String.rev (String.rev s) = s.
Proof.
  induction s as [|c s IH]; [done|].
  rewrite rev_cons, rev_append, IH. done.
Qed.

(** [s.endswith(p)] holds only when [s] is some text followed by [p]. *)
Lemma endswith_suffix (s p : string) :
  Py.endswith s p = true → ∃ stem, s = stem +:+ p.
Proof.
  unfold Py.endswith. intros H. apply prefix_app in H as [x Hx].
  exists (String.rev x).
  rewrite <-(rev_involutive s), Hx, rev_append, rev_involutive. done.
Qed.

(** ** File classifier *)

(** Membership in the result of the classifier, read off the walk. *)
Lemma get_code_files_in_elem (exclude_dirs : list string) (repo_dir : path) (t : tree)
    (p : path) :
  p ∈ get_code_files_in exclude_dirs repo_dir t ↔
  ∃ root dirs files file,
    (root, dirs, files) ∈ os_walk (not_in exclude_dirs) repo_dir t
    ∧ file ∈ files ∧ has_extension code_extensions file = true ∧ p = root ++ [file].
Proof.
  unfold get_code_files_in. rewrite list_elem_of_In, in_flat_map. split.
  - intros ([[root dirs] files] & Hw & Hp).
    apply in_map_iff in Hp as (file & <- & Hf).
    apply list_elem_of_In, list_elem_of_filter in Hf as [Hext Hf].
    exists root, dirs, files, file. split; [by apply list_elem_of_In|done].
  - intros (root & dirs & files & file & Hw & Hf & Hext & ->).
    exists (root, dirs, files). split; [by apply list_elem_of_In|].
    apply in_map_iff. exists file. split; [done|].
    apply list_elem_of_In, list_elem_of_filter. done.
Qed.

Lemma not_in_spec (exclude_dirs : list string) (d : string) :
  not_in exclude_dirs d = true ↔ d ∉ exclude_dirs.
Proof.
  unfold not_in. rewrite negb_true_iff, <-not_true_iff_false, existsb_exists.
  split; intros H Hin; apply H.
  - exists d. split; [by apply list_elem_of_In|apply String.eqb_refl].
  - destruct Hin as (x & Hx & ->%String.eqb_eq). by apply list_elem_of_In.
Qed.

(** The walk of the classifier stays off the exclude list. *)
Lemma os_walk_pruned (exclude_dirs : list string) (repo_dir : path) (t : tree)
    root dirs files :
  (root, dirs, files) ∈ os_walk (not_in exclude_dirs) repo_dir t →
  ∃ ds sub, root = repo_dir ++ ds ∧ Forall (λ d, d ∉ exclude_dirs) ds
            ∧ Forall (λ d, d ∉ exclude_dirs) dirs
            ∧ sub ∈ dirs_at t ds ∧ files = tree_files sub.
Proof.
  intros Hw.
  apply os_walk_sound in Hw as (ds & sub & -> & Hkept & Hsub & -> & ->).
  exists ds, sub. repeat split; try done.
  - eapply Forall_impl; [exact Hkept|]. intros d. apply not_in_spec.
  - apply Forall_forall. intros d [Hd _]%list_elem_of_filter. by apply not_in_spec.
Qed.

(** The shape of a path the classifier returns. *)
Lemma get_code_files_in_shape (exclude_dirs : list string) (repo_dir : path) (t : tree)
    (p : path) :
  p ∈ get_code_files_in exclude_dirs repo_dir t →
  ∃ ds file, p = repo_dir ++ ds ++ [file] ∧ file_at t ds file
             ∧ Forall (λ d, d ∉ exclude_dirs) ds
             ∧ has_extension code_extensions file = true.
Proof.
  intros (root & dirs & files & file & Hw & Hf & Hext & ->)%get_code_files_in_elem.
  apply os_walk_pruned in Hw as (ds & sub & -> & Hds & _ & Hsub & ->).
  exists ds, file. rewrite <-app_assoc. repeat split; try done.
  apply Exists_exists. by exists sub.
Qed.

(** In the other direction: a file with an allowed extension whose
    directories are all off the exclude list is returned. A directory
    whose name merely contains an excluded name is walked like any other. *)
Lemma get_code_files_in_complete (exclude_dirs : list string) (repo_dir : path) (t : tree)
    (ds : list string) (file : string) :
  file_at t ds file →
  Forall (λ d, d ∉ exclude_dirs) ds →
  has_extension code_extensions file = true →
  repo_dir ++ ds ++ [file] ∈ get_code_files_in exclude_dirs repo_dir t.
Proof.
  intros (sub & Hsub & Hfile)%Exists_exists Hds Hext.
  apply get_code_files_in_elem.
  exists (repo_dir ++ ds), (filter (λ d, not_in exclude_dirs d = true) (tree_dirs sub)),
         (tree_files sub), file.
  split; [|by rewrite app_assoc].
  apply os_walk_complete; [done|].
  eapply Forall_impl; [exact Hds|]. intros d. apply not_in_spec.
Qed.

(** C3. Every path the file classifier returns is [repo_dir] followed by
    directory names and a file name of the working copy, where no directory
    name is on the exclude list, however deep the file lies, and the file
    name is some text followed by one of the allowed extensions. The walk
    never yields a directory reached through an excluded name. With the
    default exclude list the file name is no excluded name either, so no
    segment below [repo_dir] is one. *)
Theorem get_code_files_avoids_excluded (exclude_dirs : list string) (repo_dir : path)
    (t : tree) (p : path) :
  p ∈ get_code_files_in exclude_dirs repo_dir t →
  (∃ ds file,
      p = repo_dir ++ ds ++ [file]
      ∧ file_at t ds file
      ∧ Forall (λ d, d ∉ exclude_dirs) ds
      ∧ (∃ ext stem, ext ∈ code_extensions ∧ file = stem +:+ ext)
      ∧ (exclude_dirs = default_exclude_dirs →
         Forall (λ seg, seg ∉ default_exclude_dirs) (ds ++ [file])))
  ∧ (∀ root dirs files,
       (root, dirs, files) ∈ os_walk (not_in exclude_dirs) repo_dir t →
       ∃ ds, root = repo_dir ++ ds ∧ Forall (λ d, d ∉ exclude_dirs) ds
             ∧ Forall (λ d, d ∉ exclude_dirs) dirs).
Proof.
  intros Hp. split.
  - apply get_code_files_in_shape in Hp as (ds & file & -> & Hat & Hds & Hext).
    exists ds, file.
    assert (∃ ext stem, ext ∈ code_extensions ∧ file = stem +:+ ext) as Hsuffix.
    { unfold has_extension, Py.any in Hext. apply existsb_exists in Hext as (ext & He & Hends).
      apply endswith_suffix in Hends as [stem ->]. exists ext, stem.
      split; [by apply list_elem_of_In|done]. }
    repeat split; try done.
    intros ->. apply Forall_app. split; [done|]. apply Forall_singleton.
    intros Hex. revert Hext.
    unfold default_exclude_dirs in Hex.
    repeat (apply elem_of_cons in Hex as [->|Hex]; [by vm_compute|]).
    by apply elem_of_nil in Hex.
  - intros root dirs files Hw.
    apply os_walk_pruned in Hw as (ds & sub & -> & Hds & Hdirs & _). by exists ds.
Qed.

(** ** Test coverage analyzer *)

Section CoverageProperties.
Context (L : pylib) (fs : filestore).

(** The test files and the other code files among the candidates. *)
Let tests_of (walk : list (path * list string * list string)) : list path :=
  map (λ rf, rf.1 ++ [rf.2])
      (filter (λ rf, is_test_file L rf = true) (coverage_candidates walk)).
Let others_of (walk : list (path * list string * list string)) : list path :=
  map (λ rf, rf.1 ++ [rf.2])
      (filter (λ rf, is_test_file L rf = false) (coverage_candidates walk)).

Lemma coverage_dir_fold (root : path) (dirs files : list string) (st : coverage_state) :
  let st' := foldl (coverage_file L fs root) st files in
  cs_test_files st' = cs_test_files st ++ tests_of [(root, dirs, files)]
  ∧ cs_code_files st' = cs_code_files st ++ others_of [(root, dirs, files)]
  ∧ cs_test_lines_count st'
    = (cs_test_lines_count st + sum_list_with (lines_of fs) (tests_of [(root, dirs, files)]))%nat.
Proof.
  unfold tests_of, others_of, coverage_candidates. cbn [flat_map]. rewrite app_nil_r.
  revert st. induction files as [|f files IH]; intros st; cbn [foldl].
  - cbn. rewrite !app_nil_r. repeat split; lia.
  - destruct (IH (coverage_file L fs root st f)) as (-> & -> & ->). clear IH.
    unfold coverage_file.
    assert (∀ b, (in_test_dir root || matches_test_pattern L f) = b →
                 is_test_file L (root, f) = b) as Hdef by done.
    destruct (has_extension coverage_extensions f) eqn:Hext; cbn [negb].
    + rewrite (filter_cons_True _ f files) by done. cbn [map].
      destruct (in_test_dir root || matches_test_pattern L f) eqn:Htest.
      * rewrite (filter_cons_True (λ rf, is_test_file L rf = true)) by auto.
        rewrite (filter_cons_False (λ rf, is_test_file L rf = false))
          by (rewrite (Hdef true); done).
        cbn [map fst snd sum_list_with].
        assert (lines_of fs (root ++ [f])
                = match open_read fs (root ++ [f]) with
                  | Some content => length (Py.split content Py.nl)
                  | None => 0%nat
                  end) as -> by done.
        destruct (open_read fs (root ++ [f])) as [content|];
          cbn [cs_test_files cs_code_files cs_test_lines_count];
          rewrite <-!app_assoc; repeat split; try done; lia.
      * rewrite (filter_cons_False (λ rf, is_test_file L rf = true))
          by (rewrite (Hdef false); done).
        rewrite (filter_cons_True (λ rf, is_test_file L rf = false)) by auto.
        cbn [map fst snd cs_test_files cs_code_files cs_test_lines_count].
        rewrite <-!app_assoc. done.
    + rewrite (filter_cons_False _ f files) by (by rewrite Hext). done.
Qed.

(** The lists and the line count after the walk, in closed form. *)
Lemma coverage_walk_fold (walk : list (path * list string * list string))
    (st : coverage_state) :
  let st' := foldl (λ st '(root, _, files), foldl (coverage_file L fs root) st files)
                   st walk in
  cs_test_files st' = cs_test_files st ++ tests_of walk
  ∧ cs_code_files st' = cs_code_files st ++ others_of walk
  ∧ cs_test_lines_count st'
    = (cs_test_lines_count st + sum_list_with (lines_of fs) (tests_of walk))%nat.
Proof.
  revert st. induction walk as [|[[root dirs] files] walk IH]; intros st; cbn [foldl].
  - unfold tests_of, others_of. cbn. rewrite !app_nil_r. repeat split; try done; lia.
  - destruct (IH (foldl (coverage_file L fs root) st files)) as (-> & -> & ->).
    destruct (coverage_dir_fold root dirs files st) as (-> & -> & ->).
    unfold tests_of, others_of, coverage_candidates. cbn [flat_map].
    rewrite app_nil_r, !filter_app, !map_app, sum_list_with_app, <-!app_assoc.
    repeat split; try done. symmetry. apply Nat.add_assoc.
Qed.

Lemma coverage_walk_closed (repo_dir : path) (t : tree) :
  let st := coverage_walk L fs repo_dir t in
  let walk := os_walk (λ _, true) repo_dir t in
  cs_test_files st = tests_of walk
  ∧ cs_code_files st = others_of walk
  ∧ cs_test_lines_count st = sum_list_with (lines_of fs) (tests_of walk).
Proof.
  cbn zeta. unfold coverage_walk.
  destruct (coverage_walk_fold (os_walk (λ _, true) repo_dir t)
              {| cs_test_files := []; cs_code_files := []; cs_test_lines_count := 0;
                 cs_detected_frameworks := ∅ |}) as (-> & -> & ->).
  done.
Qed.

(** A file of the working copy with a coverage extension is a candidate,
    wherever it lies. *)
Lemma coverage_candidate_any_depth (repo_dir : path) (t : tree) (ds : list string)
    (file : string) :
  file_at t ds file →
  has_extension coverage_extensions file = true →
  (repo_dir ++ ds, file) ∈ coverage_candidates (os_walk (λ _, true) repo_dir t).
Proof.
  intros (sub & Hsub & Hfile)%Exists_exists Hext.
  unfold coverage_candidates. apply list_elem_of_In, in_flat_map.
  exists (repo_dir ++ ds, filter (λ d, (λ _ : string, true) d = true) (tree_dirs sub),
          tree_files sub).
  split.
  - apply list_elem_of_In, os_walk_complete; [done|].
    apply Forall_forall. done.
  - apply in_map_iff. exists file. split; [done|].
    apply list_elem_of_In, list_elem_of_filter. done.
Qed.

(** C10. [check_test_coverage] walks the whole working copy: a file with
    one of its code extensions, in whatever directory it lies, is put with
    the test files (and its lines are part of [test_lines]) or with the
    other code files, and so enters [test_files] and the ratio. When one of
    its directories is on the exclude list of the file classifier, the
    classifier does not return it. A working copy whose only code file lies
    under [node_modules] shows the two populations apart. *)
Theorem coverage_walk_has_no_exclude_list (repo_dir : path) (t : tree) (ds : list string)
    (file : string) :
  file_at t ds file →
  has_extension coverage_extensions file = true →
  let st := coverage_walk L fs repo_dir t in
  let cov := check_test_coverage L fs repo_dir t in
  let p := repo_dir ++ ds ++ [file] in
  (if is_test_file L (repo_dir ++ ds, file)
   then p ∈ cs_test_files st ∧ (lines_of fs p ≤ test_lines cov)%nat
   else p ∈ cs_code_files st)
  ∧ test_files cov = length (cs_test_files st)
  ∧ test_to_code_ratio cov
    = (if (0 <? length (cs_code_files st))%nat
       then nat_div (length (cs_test_files st)) (length (cs_code_files st))
       else 0%Q)
  ∧ ((∃ d, d ∈ ds ∧ d ∈ default_exclude_dirs) → p ∉ get_code_files repo_dir t)
  ∧ (∃ t0, get_code_files repo_dir t0 = []
           ∧ (length (cs_test_files (coverage_walk L fs repo_dir t0))
              + length (cs_code_files (coverage_walk L fs repo_dir t0)) = 1)%nat).
Proof.
  intros Hat Hext st cov p.
  pose proof (coverage_candidate_any_depth repo_dir t ds file Hat Hext) as Hcand.
  destruct (coverage_walk_closed repo_dir t) as (Htests & Hcode & Hlines).
  fold st in Htests, Hcode, Hlines.
  assert (p = (repo_dir ++ ds, file).1 ++ [(repo_dir ++ ds, file).2]) as Hp.
  { subst p. cbn. by rewrite app_assoc. }
  split; [|split; [done|split; [done|split]]].
  - destruct (is_test_file L (repo_dir ++ ds, file)) eqn:Htest.
    + assert (p ∈ cs_test_files st) as Hin.
      { rewrite Htests. apply list_elem_of_In, in_map_iff.
        exists (repo_dir ++ ds, file). split; [done|].
        apply list_elem_of_In, list_elem_of_filter. done. }
      split; [done|]. subst cov. unfold check_test_coverage. cbn [test_lines].
      fold st. rewrite Hlines, <-Htests. by apply sum_list_with_in.
    + rewrite Hcode. apply list_elem_of_In, in_map_iff.
      exists (repo_dir ++ ds, file). split; [done|].
      apply list_elem_of_In, list_elem_of_filter. done.
  - intros (d & Hd & Hex) Hin.
    apply get_code_files_in_shape in Hin as (ds' & file' & Heq & _ & Hds' & _).
    subst p. apply app_inv_head in Heq. apply app_inj_tail in Heq as [<- _].
    rewrite Forall_forall in Hds'. by apply (Hds' d).
  - exists (Node [("node_modules", Node [] ["index.js"])] []). split; [reflexivity|].
    unfold coverage_walk. cbn [os_walk foldl app].
    unfold coverage_file. cbn [negb].
    replace (has_extension coverage_extensions "index.js") with true by (by vm_compute).
    cbn [negb].
    destruct (in_test_dir (repo_dir ++ ["node_modules"]) || matches_test_pattern L "index.js");
      [destruct (open_read fs _)|]; reflexivity.
Qed.

End CoverageProperties.

(** ** Ratios *)

Lemma Zdiv_Q_bounds (a b : Z) :
  0 <= a → 0 < b →
  (0 <= inject_Z a / inject_Z b)%Q ∧ ((inject_Z a / inject_Z b <= 1)%Q ↔ a <= b).
Proof.
  intros Ha Hb. destruct b as [|pb|pb]; try lia.
  unfold Qdiv, Qinv, Qmult, Qle, inject_Z. cbn. split; [lia|]. split; lia.
Qed.

Lemma nat_div_bounds (a b : nat) :
  (0 < b)%nat → (0 <= nat_div a b)%Q ∧ ((nat_div a b <= 1)%Q ↔ (a ≤ b)%nat).
Proof.
  intros Hb. unfold nat_div.
  destruct (Zdiv_Q_bounds (Z.of_nat a) (Z.of_nat b)) as [H0 H1]; [lia..|].
  split; [done|]. rewrite H1. lia.
Qed.

(** [split] always returns at least one piece. *)
Lemma split_go_nonempty (sep : string) (s : string) :
  ∀ (skip : nat) (acc : string), Py.split_go sep skip acc s ≠ [].
Proof.
  induction s as [|c s IH]; intros skip acc; [done|].
  cbn [Py.split_go]. destruct skip as [|k]; [|apply IH].
  destruct (String.prefix sep (String c s)); [done|apply IH].
Qed.

Lemma split_nonempty (s sep : string) : Py.split s sep ≠ [].
Proof. apply split_go_nonempty. Qed.

(** ** Commit history analyzer *)

Section CommitProperties.
Context (L : pylib).

(** The floor of one week. *)
Lemma weeks_of_floor (days_diff : Z) :
  (1 <= weeks_of days_diff)%Q ∧ ¬ (weeks_of days_diff == 0)%Q.
Proof.
  assert (1 <= weeks_of days_diff)%Q as H by apply Q.le_max_l.
  split; [done|]. intros Heq. rewrite Heq in H. by apply H.
Qed.

Lemma weeks_of_short (days_diff : Z) : days_diff <= 7 → (weeks_of days_diff == 1)%Q.
Proof.
  intros Hle. unfold weeks_of. apply Q.max_l.
  unfold Qdiv, Qinv, Qmult, Qle, inject_Z. cbn. lia.
Qed.

Lemma last_all_equal (d : string) (l : list string) :
  Forall (λ x, x = d) l → l ≠ [] → List.last l "" = d.
Proof.
  induction l as [|x l IH]; intros Hall Hne; [done|].
  apply Forall_cons in Hall as [-> Hall].
  destruct l as [|y l]; [done|]. cbn [List.last]. by apply IH.
Qed.

(** The frequency block writes [commit_frequency] and nothing else. *)
Lemma frequency_block_fields (cd : commit_data) (commit_dates : list string) :
  let cd' := frequency_block L cd commit_dates in
  total_commits cd' = total_commits cd
  ∧ active_days cd' = active_days cd
  ∧ contributors cd' = contributors cd
  ∧ commit_message_quality cd' = commit_message_quality cd
  ∧ test_driven_commits cd' = test_driven_commits cd
  ∧ (commit_frequency cd' = commit_frequency cd
     ∨ ∃ days_diff,
         commit_frequency cd' = (inject_Z (total_commits cd) / weeks_of days_diff)%Q).
Proof.
  unfold frequency_block. destruct commit_dates as [|newest rest]; [by auto 10|].
  destruct (strptime L (List.last (newest :: rest) "")) as [first_date|]; [|by auto 10].
  destruct (strptime L newest) as [last_date|]; [|by auto 10].
  cbn. repeat split; try done. right. by eexists.
Qed.

(** When every commit date is the same day, the frequency is the number
    of commits over one week. *)
Lemma frequency_block_one_day (cd : commit_data) (commit_dates : list string)
    (d : string) (day : Z) :
  commit_dates ≠ [] → Forall (λ x, x = d) commit_dates → strptime L d = Py.Ok day →
  (commit_frequency (frequency_block L cd commit_dates) == inject_Z (total_commits cd) / 1)%Q.
Proof.
  intros Hne Hall Hday. unfold frequency_block.
  rewrite (last_all_equal d) by done.
  destruct commit_dates as [|newest rest]; [done|].
  apply Forall_cons in Hall as [-> _]. rewrite Hday. cbn [commit_frequency].
  replace (day - day + 1) with 1 by lia. by rewrite weeks_of_short.
Qed.

(** Two entries at a time: the good messages found are no more than the
    pairs of the list. *)
Lemma scan_commit_logs_bound (n : nat) :
  ∀ (commit_logs : list string) (good_messages test_commits : nat),
    (length commit_logs ≤ n)%nat →
    (good_messages ≤ (scan_commit_logs L commit_logs good_messages test_commits).1
     ≤ good_messages + length commit_logs / 2)%nat.
Proof.
  induction n as [|n IH]; intros logs good tests Hlen.
  - destruct logs; [|cbn in Hlen; lia]. cbn. lia.
  - destruct logs as [|message [|names rest]]; [cbn; lia..|].
    cbn [scan_commit_logs].
    match goal with |- context [scan_commit_logs L rest ?g ?t] =>
      pose proof (IH rest g t) as Hrec end.
    cbn [length] in Hlen. specialize (Hrec ltac:(lia)).
    change (length (message :: names :: rest)) with (2 + length rest)%nat.
    replace ((2 + length rest) / 2)%nat with (1 + length rest / 2)%nat
      by (rewrite (Nat.div_add_l 1 2) by lia; lia).
    destruct (Py.any _ good_message_patterns); lia.
Qed.

(** What the analyzer leaves in [commit_frequency]: the initial 0, or the
    number of commits over a number of weeks. *)
Lemma analyze_commit_frequency (g : git_history) :
  let cd := analyze_commit_history L g in
  commit_frequency cd = 0%Q
  ∨ ∃ days_diff, commit_frequency cd = (inject_Z (total_commits cd) / weeks_of days_diff)%Q.
Proof.
  cbn zeta. unfold analyze_commit_history.
  destruct (git_rev_list_count g) as [out_count|]; [|by left].
  destruct (py_int L (Py.strip out_count)) as [n|]; [|by left].
  destruct (git_log_dates g) as [out_dates|]; [|by left].
  match goal with |- context [frequency_block L ?cd ?dates] =>
    pose proof (frequency_block_fields cd dates) as Hfb; cbn zeta in Hfb;
    set (fb := frequency_block L cd dates) in *; clearbody fb;
    destruct Hfb as (Ht & _ & _ & _ & _ & Hf);
    cbn [total_commits commit_frequency initial_commit_data] in Ht, Hf
  end.
  destruct (git_log_emails g) as [out_emails|];
    [destruct (git_log_subjects g) as [out_subjects|];
     [destruct (scan_commit_logs L _ 0 0) as [good tests];
      cbn [total_commits]; destruct (0 <? _)|]|];
    cbn [total_commits commit_frequency]; rewrite ?Ht;
    (destruct Hf as [->|[dd ->]]; [by left|right; by exists dd]).
Qed.

(** What the analyzer leaves in [commit_message_quality]: the initial 0,
    or the good messages over a positive number of commits. *)
Lemma analyze_commit_quality (g : git_history) :
  let cd := analyze_commit_history L g in
  commit_message_quality cd = 0%Q
  ∨ ∃ out_subjects good,
      git_log_subjects g = Py.Ok out_subjects
      ∧ 0 < total_commits cd
      ∧ commit_message_quality cd
        = (inject_Z (Z.of_nat good) / inject_Z (total_commits cd))%Q
      ∧ (good ≤ length (Py.split (Py.strip out_subjects) (Py.nl +:+ Py.nl)) / 2)%nat.
Proof.
  cbn zeta. unfold analyze_commit_history.
  destruct (git_rev_list_count g) as [out_count|]; [|by left].
  destruct (py_int L (Py.strip out_count)) as [n|]; [|by left].
  destruct (git_log_dates g) as [out_dates|]; [|by left].
  match goal with |- context [frequency_block L ?cd ?dates] =>
    pose proof (frequency_block_fields cd dates) as Hfb; cbn zeta in Hfb;
    set (fb := frequency_block L cd dates) in *; clearbody fb;
    destruct Hfb as (Ht & _ & _ & Hq & _ & _);
    cbn [total_commits commit_message_quality initial_commit_data] in Ht, Hq
  end.
  destruct (git_log_emails g) as [out_emails|]; [|left; by rewrite Hq].
  destruct (git_log_subjects g) as [out_subjects|]; [|left; cbn; by rewrite Hq].
  pose proof (scan_commit_logs_bound _
    (Py.split (Py.strip out_subjects) (Py.nl +:+ Py.nl)) 0 0 (le_n _)) as Hscan.
  destruct (scan_commit_logs L _ 0 0) as [good tests]. cbn [fst] in Hscan.
  cbn [total_commits]. rewrite Ht.
  destruct (0 <? n) eqn:Hpos.
  - right. exists out_subjects, good. cbn [total_commits commit_message_quality].
    apply Z.ltb_lt in Hpos. repeat split; try done. lia.
  - left. cbn. by rewrite Hq.
Qed.

(** C4. The number of weeks that divides the commits is never below one,
    so it is never zero, whatever the commit dates are; whenever
    [commit_frequency] is written it is [total_commits] over such a number
    of weeks; and a history whose commit dates are all the same day (as for
    a single commit) has [commit_frequency = total_commits / 1]. *)
Theorem commit_frequency_one_week_floor (g : git_history) :
  (∀ days_diff : Z, (1 <= weeks_of days_diff)%Q ∧ ¬ (weeks_of days_diff == 0)%Q)
  ∧ (let cd := analyze_commit_history L g in
     commit_frequency cd = 0%Q
     ∨ ∃ days_diff,
         commit_frequency cd = (inject_Z (total_commits cd) / weeks_of days_diff)%Q)
  ∧ (∀ (out_count out_dates d : string) (n day : Z),
       git_rev_list_count g = Py.Ok out_count →
       py_int L (Py.strip out_count) = Py.Ok n →
       git_log_dates g = Py.Ok out_dates →
       Forall (λ x, x = d) (Py.split (Py.strip out_dates) Py.nl) →
       strptime L d = Py.Ok day →
       let cd := analyze_commit_history L g in
       total_commits cd = n ∧ (commit_frequency cd == inject_Z n / 1)%Q).
Proof.
  split; [apply weeks_of_floor|]. split; [apply analyze_commit_frequency|].
  intros out_count out_dates d n day Hcount Hint Hdates Hall Hday. cbn zeta.
  unfold analyze_commit_history. rewrite Hcount, Hint, Hdates.
  match goal with |- context [frequency_block L ?cd ?dates] =>
    pose proof (frequency_block_fields cd dates) as Hfb; cbn zeta in Hfb;
    pose proof (frequency_block_one_day cd dates d day) as Hf;
    set (fb := frequency_block L cd dates) in *; clearbody fb;
    destruct Hfb as (Ht & _);
    cbn [total_commits initial_commit_data] in Ht, Hf
  end.
  specialize (Hf (split_nonempty _ _) Hall Hday).
  destruct (git_log_emails g) as [out_emails|];
    [destruct (git_log_subjects g) as [out_subjects|];
     [destruct (scan_commit_logs L _ 0 0) as [good tests];
      cbn [total_commits]; destruct (0 <? _)|]|];
    cbn [total_commits commit_frequency]; rewrite ?Ht; done.
Qed.

End CommitProperties.

(** A single commit on 2024-03-09. *)
Lemma commit_frequency_one_week_floor_witness :
  Forall (λ x, x = "2024-03-09") (Py.split (Py.strip ("2024-03-09" +:+ Py.nl)) Py.nl)
  ∧ total_commits (analyze_commit_history Sample.lib one_commit_history) = 1
  ∧ (commit_frequency (analyze_commit_history Sample.lib one_commit_history)
     == inject_Z 1 / 1)%Q.
Proof.
  assert (Forall (λ x, x = "2024-03-09")
                 (Py.split (Py.strip ("2024-03-09" +:+ Py.nl)) Py.nl)) as Hall.
  { apply (bool_decide_unpack _). vm_compute. exact I. }
  split; [exact Hall|].
  destruct (commit_frequency_one_week_floor Sample.lib one_commit_history) as (_ & _ & Hday).
  apply (Hday ("1" +:+ Py.nl) ("2024-03-09" +:+ Py.nl) "2024-03-09" 1 738954
              eq_refl eq_refl eq_refl Hall eq_refl).
Defined.

(** ** The ratios of the record *)




(** A file two directories deep, beside a vendored one. *)
Lemma get_code_files_avoids_excluded_witness :
  ["repo"; "src"; "app.py"] ∈ get_code_files_in default_exclude_dirs ["repo"] sample_tree
  ∧ get_code_files ["repo"] sample_tree
    = [["repo"; "setup.py"]; ["repo"; "src"; "app.py"];
       ["repo"; "tests"; "test_app.py"]; ["repo"; "tests"; "test_cli.py"]]
  ∧ ∃ ds file,
      ["repo"; "src"; "app.py"] = ["repo"] ++ ds ++ [file]
      ∧ file_at sample_tree ds file
      ∧ Forall (λ d, d ∉ default_exclude_dirs) ds
      ∧ (∃ ext stem, ext ∈ code_extensions ∧ file = stem +:+ ext)
      ∧ (default_exclude_dirs = default_exclude_dirs →
         Forall (λ seg, seg ∉ default_exclude_dirs) (ds ++ [file])).
Proof.
  assert (["repo"; "src"; "app.py"]
          ∈ get_code_files_in default_exclude_dirs ["repo"] sample_tree) as Hin.
  { apply (bool_decide_unpack _). vm_compute. exact I. }
  split; [exact Hin|]. split; [by vm_compute|].
  exact (proj1 (get_code_files_avoids_excluded default_exclude_dirs ["repo"] sample_tree
                  ["repo"; "src"; "app.py"] Hin)).
Defined.

(** The installed package of the sample working copy. *)
Lemma coverage_walk_has_no_exclude_list_witness :
  let p := ["repo"] ++ ["node_modules"; "pkg"] ++ ["index.js"] in
  file_at sample_tree ["node_modules"; "pkg"] "index.js"
  ∧ has_extension coverage_extensions "index.js" = true
  ∧ p ∈ cs_code_files (coverage_walk Sample.lib sample_store ["repo"] sample_tree)
  ∧ p ∉ get_code_files ["repo"] sample_tree.
Proof.
  cbn zeta.
  assert (file_at sample_tree ["node_modules"; "pkg"] "index.js") as Hat.
  { apply (bool_decide_unpack _). vm_compute. exact I. }
  split; [exact Hat|]. split; [reflexivity|].
  destruct (coverage_walk_has_no_exclude_list Sample.lib sample_store ["repo"] sample_tree
              ["node_modules"; "pkg"] "index.js" Hat eq_refl) as (Hclass & _ & _ & Hnot & _).
  split.
  - vm_compute (is_test_file _ _) in Hclass. exact Hclass.
  - apply Hnot. exists "node_modules". split.
    + apply (bool_decide_unpack _). vm_compute. exact I.
    + apply (bool_decide_unpack _). vm_compute. exact I.
Defined.

(** ** Qualitative scorer: the payload *)

Lemma len_append (s t : string) : Py.len (s +:+ t) = Py.len s + Py.len t.
Proof. unfold Py.len. rewrite append_length. lia. Qed.

Lemma len_nonneg (s : string) : 0 <= Py.len s.
Proof. unfold Py.len. lia. Qed.

Lemma len_long_text (n : N) : Py.len (long_text n) = Z.of_N n.
Proof.
  unfold long_text. induction n as [|n IH] using N.peano_ind; [done|].
  rewrite N.iter_succ. unfold Py.len in *. cbn [String.length].
  rewrite Nat2Z.inj_succ, IH. lia.
Qed.

Section PayloadProperties.
Context (fs : filestore).

Lemma readable_samples_cons (f : path) (l : list path) :
  readable_samples fs (f :: l)
  = match open_read fs f with
    | Some code => (f, code) :: readable_samples fs l
    | None => readable_samples fs l
    end.
Proof. unfold readable_samples. cbn. by destruct (open_read fs f). Qed.

(** The loop, from any point of its run: it takes the readable files of an
    initial part of the list whole, and it stops either at the end of the
    list or at a readable file that would bring the texts to the budget. *)
Lemma collect_samples_spec (files : list path) :
  ∀ (total_chars : Z) (code_samples : list string),
    ∃ taken rest,
      files = taken ++ rest
      ∧ collect_samples fs files total_chars code_samples
        = (code_samples ++ map (λ fc, code_sample fc.1 fc.2) (readable_samples fs taken),
           total_chars + content_chars (readable_samples fs taken))
      ∧ (total_chars < max_total_chars →
         total_chars + content_chars (readable_samples fs taken) < max_total_chars)
      ∧ (rest = []
         ∨ ∃ f code rest',
             rest = f :: rest' ∧ open_read fs f = Some code
             ∧ max_total_chars
               <= total_chars + content_chars (readable_samples fs taken) + Py.len code).
Proof.
  induction files as [|file files IH]; intros total samples.
  - exists [], []. cbn. rewrite app_nil_r, Z.add_0_r. repeat split; auto.
  - cbn [collect_samples].
    destruct (open_read fs file) as [code|] eqn:Hopen.
    + destruct (total + Py.len code <? max_total_chars) eqn:Hfit.
      * destruct (IH (total + Py.len code) (samples ++ [code_sample file code]))
          as (taken & rest & -> & -> & Hlt & Hstop).
        exists (file :: taken), rest. rewrite readable_samples_cons, Hopen.
        change (content_chars ((file, code) :: readable_samples fs taken))
          with (Py.len code + content_chars (readable_samples fs taken)).
        cbn [map fst snd].
        rewrite <-app_assoc. cbn [app]. apply Z.ltb_lt in Hfit.
        rewrite <-Z.add_assoc in Hlt, Hstop |- *.
        split; [done|]. split; [done|]. split; [intros _; by apply Hlt|]. exact Hstop.
      * exists [], (file :: files). cbn. rewrite app_nil_r, Z.add_0_r.
        apply Z.ltb_ge in Hfit.
        split; [done|]. split; [done|]. split; [done|].
        right. by exists file, code, files.
    + destruct (IH total samples) as (taken & rest & -> & -> & Hlt & Hstop).
      exists (file :: taken), rest. rewrite readable_samples_cons, Hopen. done.
Qed.

Lemma readable_samples_read (l : list path) :
  Forall (λ fc, open_read fs fc.1 = Some fc.2) (readable_samples fs l).
Proof.
  induction l as [|f l IH]; [constructor|]. rewrite readable_samples_cons.
  destruct (open_read fs f) as [code|] eqn:Hopen; [|done].
  constructor; done.
Qed.

Lemma content_chars_nonneg (included : list (path * string)) : 0 <= content_chars included.
Proof.
  induction included as [|fc l IH]; [done|].
  change (content_chars (fc :: l)) with (Py.len fc.2 + content_chars l).
  pose proof (len_nonneg fc.2). lia.
Qed.

(** The length of the joined samples. *)
Lemma len_join_samples (included : list (path * string)) :
  Py.len (Py.join Py.nl (map (λ fc, code_sample fc.1 fc.2) included))
  = content_chars included + payload_overhead included.
Proof.
  unfold payload_overhead.
  induction included as [|[f code] l IH]; [done|].
  assert (Py.len (code_sample f code)
          = Py.len code + (Py.len "File: " + Py.len (path_str f) + 2)) as Hone.
  { unfold code_sample. rewrite !len_append. change (Py.len Py.nl) with 1. lia. }
  destruct l as [|fc' l].
  - cbn [map Py.join content_chars foldr fst snd length]. rewrite Hone. lia.
  - change (Py.join Py.nl (map (λ fc, code_sample fc.1 fc.2) ((f, code) :: fc' :: l)))
      with (code_sample f code +:+ Py.nl
            +:+ Py.join Py.nl (map (λ fc, code_sample fc.1 fc.2) (fc' :: l))).
    rewrite !len_append, IH, Hone. change (Py.len Py.nl) with 1.
    cbn [content_chars foldr fst snd length]. lia.
Qed.

End PayloadProperties.

(** C9, as the code has it. The payload is made of the readable files of
    an initial part of the list, each whole and under its [File:] prefix;
    the texts of these files together stay below the budget of 500000
    characters; the loop stops at the end of the list or at the first
    readable file whose text would bring the texts to the budget, and
    every file after that one is left out. The budget counts the texts
    only: the payload is longer than them by the prefixes and newlines. *)
Theorem payload_texts_within_budget (fs : filestore) (files : list path) :
  ∃ taken rest,
    let included := readable_samples fs taken in
    files = taken ++ rest
    ∧ Forall (λ fc, open_read fs fc.1 = Some fc.2) included
    ∧ aggregated_code fs files
      = Py.join Py.nl (map (λ fc, code_sample fc.1 fc.2) included)
    ∧ 0 <= content_chars included < max_total_chars
    ∧ Py.len (aggregated_code fs files)
      = content_chars included + payload_overhead included
    ∧ (rest = []
       ∨ ∃ f code rest',
           rest = f :: rest' ∧ open_read fs f = Some code
           ∧ max_total_chars <= content_chars included + Py.len code).
Proof.
  destruct (collect_samples_spec fs files 0 []) as (taken & rest & Hfiles & Hrun & Hlt & Hstop).
  exists taken, rest. cbn zeta.
  assert (aggregated_code fs files
          = Py.join Py.nl (map (λ fc, code_sample fc.1 fc.2) (readable_samples fs taken)))
    as Hagg.
  { unfold aggregated_code. by rewrite Hrun. }
  split; [done|]. split; [apply readable_samples_read|]. split; [done|].
  split; [split; [apply content_chars_nonneg|by apply Hlt]|].
  split; [rewrite Hagg; apply len_join_samples|].
  destruct Hstop as [->|(f & code & rest' & -> & Hf & Hge)]; [by left|].
  right. by exists f, code, rest'.
Qed.

(** C9 as stated fails: one file of 499999 characters fits the budget, and
    the payload built from it has 500018 characters. *)
Lemma payload_exceeds_budget :
  let fs := store_of [(["repo"; "big.py"], long_text 499999)] in
  Py.len (aggregated_code fs [["repo"; "big.py"]]) = 500018
  ∧ ¬ (Py.len (aggregated_code fs [["repo"; "big.py"]]) <= max_total_chars).
Proof.
  cbn zeta.
  assert (Py.len (aggregated_code (store_of [(["repo"; "big.py"], long_text 499999)])
                                  [["repo"; "big.py"]]) = 500018) as Hlen.
  { unfold aggregated_code. cbn [collect_samples open_read store_of text_at].
    rewrite decide_True by done. rewrite len_long_text.
    change (0 + Z.of_N 499999 <? max_total_chars) with true.
    cbn [fst app Py.join]. unfold code_sample.
    rewrite !len_append, len_long_text. reflexivity. }
  split; [exact Hlen|]. rewrite Hlen. unfold max_total_chars. lia.
Qed.

(** ** Dependency analyzer *)

Lemma requirement_line_spec (line : string) :
  negb (String.eqb (Py.strip line) "") && negb (Py.startswith line "#") = true
  ↔ Py.strip line ≠ "" ∧ Py.startswith line "#" = false.
Proof. by rewrite andb_true_iff, !negb_true_iff, String.eqb_neq. Qed.

Lemma direct_deps_length (text : string) :
  length (direct_deps (Py.readlines text)) = length (requirement_lines text).
Proof.
  unfold direct_deps, requirement_lines. rewrite length_map.
  induction (Py.readlines text) as [|line l IH]; [done|].
  rewrite !filter_cons.
  pose proof (requirement_line_spec line) as Hspec.
  destruct (decide (negb (String.eqb (Py.strip line) "")
                    && negb (Py.startswith line "#") = true)) as [Hb|Hb];
    destruct (decide (Py.strip line ≠ "" ∧ Py.startswith line "#" = false)) as [Hp|Hp];
    cbn [length]; rewrite ?IH; try done; tauto.
Qed.

(** C5, as the code has it. Both manifests are looked for, one after the
    other. With neither, the three counts are zero. A readable
    [package.json] that holds an object gives [dev_dependencies] the size
    of its [devDependencies] map, and, when there is no [requirements.txt],
    gives [direct_dependencies] the size of its [dependencies] map and
    [total_dependencies] the sum of the two. A readable [requirements.txt]
    gives [direct_dependencies] and [total_dependencies] the number of its
    lines that are not blank and do not begin with [#], also when
    [package.json] is there; [dev_dependencies] is zero when it is not. *)
Theorem dependency_counts_by_manifest (L : pylib) (open_strict : path → option string)
    (repo_dir : path) (t : tree) :
  let dd := analyze_dependency_graph L open_strict repo_dir t in
  (os_path_exists t "package.json" = false →
   os_path_exists t "requirements.txt" = false →
   direct_dependencies dd = 0 ∧ dev_dependencies dd = 0 ∧ total_dependencies dd = 0)%nat
  ∧ (∀ text members deps devs,
       os_path_exists t "package.json" = true →
       open_strict (repo_dir ++ ["package.json"]) = Some text →
       json_loads L text = Py.Ok (JObj members) →
       json_get (JObj members) "dependencies" = Py.Ok (JObj deps) →
       json_get (JObj members) "devDependencies" = Py.Ok (JObj devs) →
       dev_dependencies dd = length devs
       ∧ (os_path_exists t "requirements.txt" = false →
          direct_dependencies dd = length deps
          ∧ total_dependencies dd = (length deps + length devs)%nat))
  ∧ (∀ text,
       os_path_exists t "requirements.txt" = true →
       open_strict (repo_dir ++ ["requirements.txt"]) = Some text →
       direct_dependencies dd = length (requirement_lines text)
       ∧ total_dependencies dd = length (requirement_lines text)
       ∧ (os_path_exists t "package.json" = false → dev_dependencies dd = 0%nat)).
Proof.
  cbn zeta. unfold analyze_dependency_graph. split; [|split].
  - intros Hpkg Hreq. unfold requirements_block, package_json_block.
    rewrite Hpkg, Hreq. done.
  - intros text members deps devs Hpkg Hopen Hload Hdeps Hdevs.
    assert (package_json_block L open_strict repo_dir t
              {| total_dependencies := 0; direct_dependencies := 0;
                 dev_dependencies := 0; outdated_dependencies := 0 |}
            = {| total_dependencies := length deps + length devs;
                 direct_dependencies := length deps;
                 dev_dependencies := length devs; outdated_dependencies := 0 |}) as ->.
    { unfold package_json_block. rewrite Hpkg, Hopen, Hload, Hdeps, Hdevs. done. }
    unfold requirements_block.
    destruct (os_path_exists t "requirements.txt").
    + destruct (open_strict (repo_dir ++ ["requirements.txt"])); split; done.
    + split; done.
  - intros text Hreq Hopen. unfold requirements_block. rewrite Hreq, Hopen.
    cbn [direct_dependencies total_dependencies dev_dependencies].
    rewrite direct_deps_length. split; [done|]. split; [done|].
    intros Hpkg. unfold package_json_block. rewrite Hpkg. done.
Qed.

(** A working copy with [package.json] alone, and one with both manifests. *)
Lemma dependency_counts_by_manifest_witness :
  let only := analyze_dependency_graph Sample.lib manifest_texts ["repo"] package_only_tree in
  let both := analyze_dependency_graph Sample.lib manifest_texts ["repo"] both_manifests_tree in
  os_path_exists package_only_tree "requirements.txt" = false
  ∧ (direct_dependencies only = 2 ∧ dev_dependencies only = 1
     ∧ total_dependencies only = 3)%nat
  ∧ (direct_dependencies both = length (requirement_lines requirements_text)
     ∧ total_dependencies both = length (requirement_lines requirements_text)).
Proof.
  cbn zeta. split; [reflexivity|]. split.
  - destruct (dependency_counts_by_manifest Sample.lib manifest_texts ["repo"]
                package_only_tree) as (_ & Hpkg & _).
    destruct (Hpkg package_json_text
                [("dependencies", JObj [("express", JStr "4"); ("lodash", JStr "4")]);
                 ("devDependencies", JObj [("jest", JStr "29")])]
                [("express", JStr "4"); ("lodash", JStr "4")]
                [("jest", JStr "29")]
                eq_refl eq_refl eq_refl eq_refl eq_refl) as [Hdev Hrest].
    destruct (Hrest eq_refl) as [Hdirect Htotal]. done.
  - destruct (dependency_counts_by_manifest Sample.lib manifest_texts ["repo"]
                both_manifests_tree) as (_ & _ & Hreq).
    destruct (Hreq requirements_text eq_refl eq_refl) as (Hdirect & Htotal & _). done.
Defined.

(** C5 as stated fails: with both manifests in the working copy, the
    counts are those of neither. [package.json] declares two dependencies
    and one development dependency, [requirements.txt] one line; the result
    has one direct, one development and one total dependency. *)
Lemma both_manifests_mix_counts :
  let dd := analyze_dependency_graph Sample.lib manifest_texts ["repo"] both_manifests_tree in
  json_loads Sample.lib package_json_text
  = Py.Ok (JObj [("dependencies", JObj [("express", JStr "4"); ("lodash", JStr "4")]);
                 ("devDependencies", JObj [("jest", JStr "29")])])
  ∧ (direct_dependencies dd = 1 ∧ dev_dependencies dd = 1 ∧ total_dependencies dd = 1)%nat
  ∧ direct_dependencies dd ≠ 2%nat
  ∧ total_dependencies dd ≠ (2 + 1)%nat.
Proof. cbn zeta. vm_compute. repeat split; done. Qed.

(** ** Qualitative scorer and orchestrator *)

Section ScorerProperties.
Context (L : pylib).

(** The handler of the inner [except] raises only when there is no text. *)
Lemma extract_json_text (text : string) :
  ∃ v, extract_json L (Some text) = Py.Ok v
       ∧ (v = raw_response text
          ∨ (0 <= Py.find text "{" < Py.rfind text "}" + 1
             ∧ json_loads L (Py.slice text (Py.find text "{") (Py.rfind text "}" + 1))
               = Py.Ok v)).
Proof.
  unfold extract_json.
  destruct ((0 <=? Py.find text "{") && (Py.find text "{" <? Py.rfind text "}" + 1))
    eqn:Hbraces; [|by eexists; split; [|left]].
  apply andb_true_iff in Hbraces as [H0%Z.leb_le H1%Z.ltb_lt].
  destruct (json_loads L (Py.slice text (Py.find text "{") (Py.rfind text "}" + 1)))
    as [parsed|msg] eqn:Hload; cbn [Py.try_except].
  - exists parsed. split; [done|]. right. done.
  - eexists. split; [done|]. by left.
Qed.

(** The scorer returns a value for every behaviour of the service and of
    the JSON parser. *)
Lemma derive_gemini_scores_total (fs : filestore)
    (generate_content : string → Py.result (option string)) (files : list path) :
  ∃ v, derive_gemini_scores L fs generate_content files = Py.Ok v
       ∧ match generate_content (prompt fs files) with
         | Py.Raise e => v = JObj [("error", JStr e)]
         | Py.Ok None => ∃ e, v = JObj [("error", JStr e)]
         | Py.Ok (Some text) =>
             match json_loads L text with
             | Py.Ok parsed => v = parsed
             | Py.Raise _ =>
                 v = raw_response text
                 ∨ (0 <= Py.find text "{" < Py.rfind text "}" + 1
                    ∧ json_loads L (Py.slice text (Py.find text "{")
                                             (Py.rfind text "}" + 1)) = Py.Ok v)
             end
         end.
Proof.
  unfold derive_gemini_scores.
  destruct (generate_content (prompt fs files)) as [[text|]|e]; cbn [Py.bind Py.try_except].
  - destruct (json_loads L text) as [parsed|msg]; cbn [Py.try_except]; [by eexists|].
    destruct (extract_json_text text) as (v & -> & Hv). by exists v.
  - eexists. split; [done|]. by eexists.
  - by eexists.
Qed.

End ScorerProperties.



